(** * Rule-based push-up repetition detector

    Shallow embedding of [app/services/detectors/pushup_detector.py]
    (class [PushupDetector]) and the properties of its phase classifier,
    majority-vote smoother and repetition counter.

    Modelling choices.
    - Python [float] is IEEE 754 binary64: coordinates, timestamps and
      thresholds are primitive floats, with the source's decimal literals
      rounded to the nearest binary64 value as Python does.
    - Python [int] is unbounded: counters are [Z].
    - The phase strings ["neutral"], ["up"], ["down"], ["transition"] are the
      constructors of [Phase].
    - A [deque(maxlen=n)] is a list, oldest entry first; [append] drops the
      oldest entry once the length would exceed [n].
    - The methods mutate [self] and may raise: they live in a state and
      exception monad [M] over the record [PushupDetector].
    - [time.time()] is an input: every place that reads the clock receives
      its own reading.
    - The iteration order of [set(recent_phases)] is not fixed by the
      language: it is an oracle [hash_order] that selects one permutation of
      the distinct elements.
    - [print] writes to standard output and is not modelled. *)

From Stdlib Require Import Floats ZArith List Bool Lia Permutation.
From Stdlib Require Uint63.
Import ListNotations.

Set Warnings "-inexact-float".

(** ** Phase labels *)

Inductive Phase : Type := Neutral | Up | Down | Transition.

Definition Phase_eq_dec (p q : Phase) : {p = q} + {p <> q}.
Proof. decide equality. Defined.

Definition Phase_eqb (p q : Phase) : bool :=
  if Phase_eq_dec p q then true else false.

(** ** Python lists and deques *)

Inductive exn : Type := IndexError | ValueError.

Inductive result (A : Type) : Type :=
| Ok (a : A)
| Raise (e : exn).
Arguments Ok {A} a.
Arguments Raise {A} e.

(** [l[i]] for a non-negative index [i]. *)
Definition getitem {A : Type} (l : list A) (i : nat) : result A :=
  match nth_error l i with
  | Some x => Ok x
  | None => Raise IndexError
  end.

(** [l[-1]]. *)
Definition getitem_last {A : Type} (l : list A) : result A :=
  match rev l with
  | x :: _ => Ok x
  | [] => Raise IndexError
  end.

(** [l[-n:]] for [n > 0]. *)
Definition slice_last {A : Type} (n : nat) (l : list A) : list A :=
  skipn (length l - n) l.

(** [l[:-1]]. *)
Definition slice_but_last {A : Type} (l : list A) : list A := removelast l.

(** [x in l]. *)
Definition contains (x : Phase) (l : list Phase) : bool :=
  existsb (Phase_eqb x) l.

(** [l.count(x)]. *)
Definition count (l : list Phase) (x : Phase) : Z :=
  Z.of_nat (count_occ Phase_eq_dec l x).

(** [range(a, b)]. *)
Definition range (a b : nat) : list nat := seq a (b - a).

(** [d.append(x)] on a [deque(maxlen=maxlen)]: the new entry goes to the
    right end, and the left-most entry is dropped when the deque would
    become longer than [maxlen]. *)
Definition deque_append {A : Type} (maxlen : nat) (d : list A) (x : A)
  : list A :=
  let d' := d ++ [x] in
  if (maxlen <? length d')%nat then tl d' else d'.

(** [max(pairs, key=value)] over the (key, value) items of a dict in
    iteration order: the first key whose value is maximal; [ValueError] on an
    empty dict. *)
Fixpoint max_from {K : Type} (best : K * Z) (l : list (K * Z)) : K :=
  match l with
  | [] => fst best
  | kv :: l' => if (snd best <? snd kv)%Z then max_from kv l' else max_from best l'
  end.

Definition max_by_value {K : Type} (items : list (K * Z)) : result K :=
  match items with
  | [] => Raise ValueError
  | kv :: l => Ok (max_from kv l)
  end.

(** ** Iteration order of a set *)

Fixpoint insert_everywhere {A : Type} (x : A) (l : list A) : list (list A) :=
  match l with
  | [] => [[x]]
  | y :: t => (x :: l) :: map (cons y) (insert_everywhere x t)
  end.

Fixpoint permutations {A : Type} (l : list A) : list (list A) :=
  match l with
  | [] => [[]]
  | x :: t => flat_map (insert_everywhere x) (permutations t)
  end.

(** [list(set(l))]: the distinct elements of [l], in the order number
    [hash_order l] among their permutations. *)
Definition set_iter (hash_order : list Phase -> nat) (l : list Phase)
  : list Phase :=
  let distinct := nodup Phase_eq_dec l in
  nth (hash_order l) (permutations distinct) distinct.

(** ** Detector state *)

Definition Landmark : Type := (float * float)%type.

Record PushupDetector : Type := mkDetector {
  rep_count : Z;
  current_phase : Phase;
  last_phase : Phase;
  phase_history : list Phase;      (* deque(maxlen=10) *)
  last_rep_time : float;
  min_rep_interval : float;
  position_history : list Phase    (* deque(maxlen=5) *)
}.

Definition phase_history_maxlen : nat := 10.
Definition position_history_maxlen : nat := 5.

(** [PushupDetector.__init__]. *)
Definition init : PushupDetector :=
  {| rep_count := 0;
     current_phase := Neutral;
     last_phase := Neutral;
     phase_history := [];
     last_rep_time := 0%float;
     min_rep_interval := 1.0%float;
     position_history := [] |}.

(** The record returned by [update]. *)
Record UpdateResult : Type := mkResult {
  res_phase : Phase;
  res_rep_count : Z;
  res_rep_completed : bool;
  res_phase_history : list Phase
}.

(** ** State and exception monad *)

Definition M (A : Type) : Type := PushupDetector -> result (A * PushupDetector).

Definition ret {A : Type} (a : A) : M A := fun self => Ok (a, self).

Definition bind {A B : Type} (m : M A) (k : A -> M B) : M B :=
  fun self =>
    match m self with
    | Ok (a, self') => k a self'
    | Raise e => Raise e
    end.

Definition lift {A : Type} (r : result A) : M A :=
  fun self =>
    match r with
    | Ok a => Ok (a, self)
    | Raise e => Raise e
    end.

Definition read {A : Type} (field : PushupDetector -> A) : M A :=
  fun self => Ok (field self, self).

Definition modify (f : PushupDetector -> PushupDetector) : M unit :=
  fun self => Ok (tt, f self).

Declare Scope monad_scope.
Delimit Scope monad_scope with monad.
Notation "x <- m ;; k" := (bind m (fun x => k))
  (at level 61, m at next level, right associativity) : monad_scope.
Notation "m ;; k" := (bind m (fun _ => k))
  (at level 61, right associativity) : monad_scope.

(** Attribute assignments [self.field = v]. *)
Definition set_rep_count (v : Z) (s : PushupDetector) : PushupDetector :=
  mkDetector v (current_phase s) (last_phase s) (phase_history s)
             (last_rep_time s) (min_rep_interval s) (position_history s).

Definition set_current_phase (v : Phase) (s : PushupDetector) : PushupDetector :=
  mkDetector (rep_count s) v (last_phase s) (phase_history s)
             (last_rep_time s) (min_rep_interval s) (position_history s).

Definition set_last_phase (v : Phase) (s : PushupDetector) : PushupDetector :=
  mkDetector (rep_count s) (current_phase s) v (phase_history s)
             (last_rep_time s) (min_rep_interval s) (position_history s).

Definition set_phase_history (v : list Phase) (s : PushupDetector)
  : PushupDetector :=
  mkDetector (rep_count s) (current_phase s) (last_phase s) v
             (last_rep_time s) (min_rep_interval s) (position_history s).

Definition set_last_rep_time (v : float) (s : PushupDetector) : PushupDetector :=
  mkDetector (rep_count s) (current_phase s) (last_phase s) (phase_history s)
             v (min_rep_interval s) (position_history s).

Definition set_position_history (v : list Phase) (s : PushupDetector)
  : PushupDetector :=
  mkDetector (rep_count s) (current_phase s) (last_phase s) (phase_history s)
             (last_rep_time s) (min_rep_interval s) v.

(** ** The methods of [PushupDetector] *)

(** The loop
    [for i in range(1, len(recent)): if recent[i] != recent[i-1]: transitions += 1]
    run over the index list [indices]. *)
Fixpoint count_transitions (recent : list Phase) (indices : list nat)
    (transitions : Z) : result Z :=
  match indices with
  | [] => Ok transitions
  | i :: rest =>
      match getitem recent i with
      | Raise e => Raise e
      | Ok cur =>
          match getitem recent (i - 1) with
          | Raise e => Raise e
          | Ok prev =>
              count_transitions recent rest
                (if negb (Phase_eqb cur prev) then transitions + 1
                 else transitions)%Z
          end
      end
  end.

(** One frame as the detector sees it: the landmark list, the clock reading
    taken by [check_rep_completion] and the later one taken by [count_rep]
    (each is consulted only if the corresponding [time.time()] call is
    reached). *)
Record Frame : Type := mkFrame {
  frame_landmarks : list Landmark;
  frame_time_check : float;
  frame_time_count : float
}.

Section Detector.

Variable hash_order : list Phase -> nat.

Local Open Scope monad_scope.

(** [PushupDetector.detect_pushup_phase]. *)
Definition detect_pushup_phase (landmarks : list Landmark) : M Phase :=
  if negb (length landmarks =? 33)%nat then ret Neutral else
  left_wrist <- lift (getitem landmarks 15) ;;
  right_wrist <- lift (getitem landmarks 16) ;;
  left_shoulder <- lift (getitem landmarks 11) ;;
  right_shoulder <- lift (getitem landmarks 12) ;;
  left_elbow <- lift (getitem landmarks 13) ;;
  right_elbow <- lift (getitem landmarks 14) ;;
  nose <- lift (getitem landmarks 0) ;;
  let avg_wrist_y := ((snd left_wrist + snd right_wrist) / 2)%float in
  let avg_shoulder_y := ((snd left_shoulder + snd right_shoulder) / 2)%float in
  let avg_elbow_y := ((snd left_elbow + snd right_elbow) / 2)%float in
  let nose_y := snd nose in
  let wrist_shoulder_diff := (avg_wrist_y - avg_shoulder_y)%float in
  let elbow_shoulder_diff := (avg_elbow_y - avg_shoulder_y)%float in
  let nose_shoulder_diff := (nose_y - avg_shoulder_y)%float in
  let up_indicators := 0%Z in
  let down_indicators := 0%Z in
  let '(up_indicators, down_indicators) :=
    if (wrist_shoulder_diff <? -0.15)%float
    then ((up_indicators + 2)%Z, down_indicators)
    else if (0.1 <? wrist_shoulder_diff)%float
    then (up_indicators, (down_indicators + 1)%Z)
    else (up_indicators, down_indicators) in
  let '(up_indicators, down_indicators) :=
    if (elbow_shoulder_diff <? -0.05)%float
    then ((up_indicators + 1)%Z, down_indicators)
    else if (0.05 <? elbow_shoulder_diff)%float
    then (up_indicators, (down_indicators + 1)%Z)
    else (up_indicators, down_indicators) in
  let '(up_indicators, down_indicators) :=
    if (nose_shoulder_diff <? -0.1)%float
    then ((up_indicators + 1)%Z, down_indicators)
    else if (0.05 <? nose_shoulder_diff)%float
    then (up_indicators, (down_indicators + 1)%Z)
    else (up_indicators, down_indicators) in
  let phase :=
    if (2 <=? up_indicators)%Z then Up
    else if (2 <=? down_indicators)%Z then Down
    else Transition in
  modify (fun self =>
    set_position_history
      (deque_append position_history_maxlen (position_history self) phase)
      self) ;;
  history <- read position_history ;;
  if (3 <=? length history)%nat then
    let recent_phases := slice_last 3 history in
    let phase_counts :=
      map (fun p => (p, count recent_phases p))
          (set_iter hash_order recent_phases) in
    lift (max_by_value phase_counts)
  else ret phase.

(** [PushupDetector.count_rep]; [now] is its [time.time()] reading. *)
Definition count_rep (now : float) : M unit :=
  modify (fun self => set_rep_count (rep_count self + 1)%Z self) ;;
  modify (set_last_rep_time now) ;;
  modify (set_phase_history []).

(** [PushupDetector.check_rep_completion]; [now] is its own [time.time()]
    reading and [now_count] the one [count_rep] takes. *)
Definition check_rep_completion (now now_count : float) : M bool :=
  history <- read phase_history ;;
  if (length history <? 4)%nat then ret false else
  let current_time := now in
  last <- read last_rep_time ;;
  interval <- read min_rep_interval ;;
  if (current_time - last <? interval)%float then ret false else
  let recent := slice_last 6 history in
  let has_down := contains Down (slice_but_last recent) in
  newest <- lift (getitem_last recent) ;;
  let is_up_now := Phase_eqb newest Up in
  if has_down && is_up_now then
    transitions <-
      lift (count_transitions recent (range 1 (length recent)) 0%Z) ;;
    if (2 <=? transitions)%Z then
      count_rep now_count ;;
      ret true
    else ret false
  else ret false.

(** [PushupDetector.update]. *)
Definition update (f : Frame) : M UpdateResult :=
  previous <- read current_phase ;;
  modify (set_last_phase previous) ;;
  detected <- detect_pushup_phase (frame_landmarks f) ;;
  modify (set_current_phase detected) ;;
  modify (fun self =>
    set_phase_history
      (deque_append phase_history_maxlen (phase_history self)
         (current_phase self))
      self) ;;
  rep_completed <-
    check_rep_completion (frame_time_check f) (frame_time_count f) ;;
  phase <- read current_phase ;;
  reps <- read rep_count ;;
  history <- read phase_history ;;
  ret (mkResult phase reps rep_completed history).

(** [PushupDetector.reset]. *)
Definition reset : M unit :=
  modify (set_rep_count 0%Z) ;;
  modify (set_phase_history []) ;;
  modify (set_position_history []) ;;
  modify (set_last_rep_time 0%float).

(** A session: one [update] per frame, in order, collecting the returned
    records; an exception aborts the session. *)
Fixpoint run (frames : list Frame) : M (list UpdateResult) :=
  match frames with
  | [] => ret []
  | f :: rest =>
      r <- update f ;;
      rs <- run rest ;;
      ret (r :: rs)
  end.

End Detector.

(** ** The classifier as the specification words it

    Three geometric differences, a table of independent votes and a
    decision on the two totals.  These definitions follow the specification
    text; [detect_pushup_phase] above follows the source. *)

Module Classifier.

Local Open Scope float_scope.

Definition default_landmark : Landmark := (0, 0).

Definition y_of (landmarks : list Landmark) (i : nat) : float :=
  snd (nth i landmarks default_landmark).

Definition avg (a b : float) : float := (a + b) / 2.

Definition wrist_shoulder_diff (lm : list Landmark) : float :=
  avg (y_of lm 15) (y_of lm 16) - avg (y_of lm 11) (y_of lm 12).

Definition elbow_shoulder_diff (lm : list Landmark) : float :=
  avg (y_of lm 13) (y_of lm 14) - avg (y_of lm 11) (y_of lm 12).

Definition nose_shoulder_diff (lm : list Landmark) : float :=
  y_of lm 0 - avg (y_of lm 11) (y_of lm 12).

Definition vote (condition : bool) (weight : Z) : Z :=
  if condition then weight else 0%Z.

Definition up_votes (wrist elbow nose : float) : Z :=
  (vote (wrist <? -0.15)%float 2 + vote (elbow <? -0.05)%float 1
   + vote (nose <? -0.1)%float 1)%Z.

Definition down_votes (wrist elbow nose : float) : Z :=
  (vote (0.1 <? wrist)%float 1 + vote (0.05 <? elbow)%float 1
   + vote (0.05 <? nose)%float 1)%Z.

Definition decide (up_indicators down_indicators : Z) : Phase :=
  if (2 <=? up_indicators)%Z then Up
  else if (2 <=? down_indicators)%Z then Down
  else Transition.

Definition raw_label (lm : list Landmark) : Phase :=
  decide
    (up_votes (wrist_shoulder_diff lm) (elbow_shoulder_diff lm)
       (nose_shoulder_diff lm))
    (down_votes (wrist_shoulder_diff lm) (elbow_shoulder_diff lm)
       (nose_shoulder_diff lm)).

End Classifier.

(** ** Functional reading of the methods

    What one [update] computes, as plain functions of the frame and of the
    state before it.  [update_step] below proves that the monadic methods
    compute exactly this and never raise. *)

(** Number of adjacent unequal pairs of a list. *)
Fixpoint adjacent_changes (l : list Phase) : Z :=
  match l with
  | a :: (b :: _) as rest =>
      ((if Phase_eqb b a then 0 else 1) + adjacent_changes rest)%Z
  | _ => 0%Z
  end.

(** The frequency tally of [recent] and its [max]. *)
Definition majority (hash_order : list Phase -> nat) (recent : list Phase)
  : result Phase :=
  max_by_value
    (map (fun p => (p, count recent p)) (set_iter hash_order recent)).

Definition smoothed (hash_order : list Phase -> nat) (window : list Phase)
    (raw : Phase) : Phase :=
  if (3 <=? length window)%nat then
    match majority hash_order (slice_last 3 window) with
    | Ok p => p
    | Raise _ => raw
    end
  else raw.

(** The smoothing window once the raw label of the frame has been pushed. *)
Definition window_after (lm : list Landmark) (s : PushupDetector)
  : list Phase :=
  deque_append position_history_maxlen (position_history s)
    (Classifier.raw_label lm).

Definition detected_label (hash_order : list Phase -> nat)
    (lm : list Landmark) (s : PushupDetector) : Phase :=
  if (length lm =? 33)%nat
  then smoothed hash_order (window_after lm s) (Classifier.raw_label lm)
  else Neutral.

Definition detected_state (lm : list Landmark) (s : PushupDetector)
  : PushupDetector :=
  if (length lm =? 33)%nat
  then set_position_history (window_after lm s) s
  else s.

(** The down-then-up pattern on the last six entries of a history. *)
Definition completion_pattern (history : list Phase) : bool :=
  let recent := slice_last 6 history in
  contains Down (slice_but_last recent)
  && Phase_eqb (last recent Neutral) Up
  && (2 <=? adjacent_changes recent)%Z.

(** The debounce test of [check_rep_completion]. *)
Definition debounced (now : float) (s : PushupDetector) : bool :=
  (now - last_rep_time s <? min_rep_interval s)%float.

Definition counts_rep (f : Frame) (s : PushupDetector) (history : list Phase)
  : bool :=
  negb (length history <? 4)%nat
  && negb (debounced (frame_time_check f) s)
  && completion_pattern history.

Definition step (hash_order : list Phase -> nat) (f : Frame)
    (s : PushupDetector) : UpdateResult * PushupDetector :=
  let label := detected_label hash_order (frame_landmarks f) s in
  let history := deque_append phase_history_maxlen (phase_history s) label in
  let s1 :=
    set_phase_history history
      (set_current_phase label
         (detected_state (frame_landmarks f)
            (set_last_phase (current_phase s) s))) in
  if counts_rep f s history then
    (mkResult label (rep_count s + 1)%Z true [],
     set_phase_history []
       (set_last_rep_time (frame_time_count f)
          (set_rep_count (rep_count s + 1)%Z s1)))
  else (mkResult label (rep_count s) false history, s1).

(** A session as iterated [step]. *)
Fixpoint steps (hash_order : list Phase -> nat) (frames : list Frame)
    (s : PushupDetector) : list UpdateResult * PushupDetector :=
  match frames with
  | [] => ([], s)
  | f :: rest =>
      let now := step hash_order f s in
      let later := steps hash_order rest (snd now) in
      (fst now :: fst later, snd later)
  end.

(** Two detectors that agree on everything a later [update] reads: all
    attributes except [current_phase] and [last_phase]. *)
Definition same_observable (a b : PushupDetector) : Prop :=
  rep_count a = rep_count b
  /\ phase_history a = phase_history b
  /\ last_rep_time a = last_rep_time b
  /\ min_rep_interval a = min_rep_interval b
  /\ position_history a = position_history b.

(** A well-shaped frame whose raw label is [p]. *)
Definition raw_classified (p : Phase) (f : Frame) : Prop :=
  length (frame_landmarks f) = 33%nat
  /\ Classifier.raw_label (frame_landmarks f) = p.

(** ** Sample frames *)

Module Samples.

Local Open Scope float_scope.

(** A 33-point pose with the given heights of nose, shoulders, elbows and
    wrists; the other points sit at the centre of the image. *)
Definition pose (nose_y shoulder_y elbow_y wrist_y : float) : list Landmark :=
  [(0.5, nose_y)] ++ repeat (0.5, 0.5) 10
  ++ [(0.4, shoulder_y); (0.6, shoulder_y); (0.4, elbow_y); (0.6, elbow_y);
      (0.4, wrist_y); (0.6, wrist_y)]
  ++ repeat (0.5, 0.5) 16.

(** Wrists 0.2 below the shoulders, elbows 0.1 below: two down votes. *)
Definition down_pose : list Landmark := pose 0.5 0.5 0.6 0.7.

(** Wrists 0.25 above the shoulders: two up votes. *)
Definition up_pose : list Landmark := pose 0.5 0.5 0.5 0.25.

(** Nothing beyond the thresholds: no vote either way. *)
Definition level_pose : list Landmark := pose 0.5 0.5 0.5 0.5.

(** A frame with a single clock reading. *)
Definition at_time (lm : list Landmark) (t : float) : Frame := mkFrame lm t t.

(** Set iteration in the order in which [nodup] lists the distinct
    elements. *)
Definition nodup_order (l : list Phase) : nat := 0.

(** Set iteration in the reverse of that order, for up to three elements. *)
Definition reverse_order (l : list Phase) : nat :=
  match length (nodup Phase_eq_dec l) with
  | 2 => 1
  | 3 => 5
  | _ => 0
  end.

(** A detector that has seen Down, Down, Transition and whose window holds
    two Up labels: the next Up frame completes a rep. *)
Definition about_to_complete : PushupDetector :=
  set_phase_history [Down; Down; Transition]
    (set_position_history [Up; Up] init).

(** Frames within 0.6 s of a rep counted at time 100: after that rep the
    smoothed labels of [hurried_frames] and of [hurried_last] are Up, Down,
    Down, Transition, Transition, Up. *)
Definition hurried_frames : list Frame :=
  [at_time down_pose 100.1; at_time down_pose 100.2;
   at_time level_pose 100.3; at_time level_pose 100.4;
   at_time up_pose 100.5].

Definition hurried_last : Frame := at_time up_pose 100.6.

(** The same last frame, read more than a second after the rep. *)
Definition patient_last : Frame := at_time up_pose 101.5.

(** Five Down frames, then five Up frames that start 1.6 s after the last
    Down frame. *)
Definition down_batch : list Frame :=
  map (at_time down_pose) [100; 100.1; 100.2; 100.3; 100.4].

Definition up_batch : list Frame :=
  map (at_time up_pose) [102; 102.1; 102.2; 102.3; 102.4].

(** Wrists 0.2 below the shoulders and nothing else beyond a threshold: a
    single down vote. *)
Definition wrist_only_pose : list Landmark := pose 0.5 0.5 0.5 0.7.

(** The down pose with the shoulder heights missing (NaN). *)
Definition no_shoulder_pose : list Landmark := pose 0.5 nan 0.6 0.7.

(** The down pose moved 0.1 to the right. *)
Definition shifted_down_pose : list Landmark :=
  map (fun p => (fst p + 0.1, snd p)) down_pose.

End Samples.

(** ** Sessions with resets *)

(** A call made on the detector by its owner. *)
Inductive Call : Type :=
| CallUpdate (f : Frame)
| CallReset.

(** The calls in order, collecting the records that the updates return. *)
Fixpoint session (hash_order : list Phase -> nat) (calls : list Call)
  : M (list UpdateResult) :=
  match calls with
  | [] => ret []
  | CallUpdate f :: rest =>
      (r <- update hash_order f ;;
       rs <- session hash_order rest ;;
       ret (r :: rs))%monad
  | CallReset :: rest =>
      (reset ;; session hash_order rest)%monad
  end.

(** The frames of the updates of a call list. *)
Fixpoint frames_of (calls : list Call) : list Frame :=
  match calls with
  | [] => []
  | CallUpdate f :: rest => f :: frames_of rest
  | CallReset :: rest => frames_of rest
  end.

(** The detector after [reset]. *)
Definition reset_state (s : PushupDetector) : PushupDetector :=
  set_last_rep_time 0%float
    (set_position_history []
       (set_phase_history [] (set_rep_count 0%Z s))).

(** The three up conditions and the three down conditions of the vote, as
    [detect_pushup_phase] tests them. *)
Definition wrist_up (lm : list Landmark) : bool :=
  (Classifier.wrist_shoulder_diff lm <? -0.15)%float.
Definition elbow_up (lm : list Landmark) : bool :=
  (Classifier.elbow_shoulder_diff lm <? -0.05)%float.
Definition nose_up (lm : list Landmark) : bool :=
  (Classifier.nose_shoulder_diff lm <? -0.1)%float.
Definition wrist_down (lm : list Landmark) : bool :=
  (0.1 <? Classifier.wrist_shoulder_diff lm)%float.
Definition elbow_down (lm : list Landmark) : bool :=
  (0.05 <? Classifier.elbow_shoulder_diff lm)%float.
Definition nose_down (lm : list Landmark) : bool :=
  (0.05 <? Classifier.nose_shoulder_diff lm)%float.

(** At least two of three. *)
Definition two_of (a b c : bool) : bool := a && b || a && c || b && c.

(** * The pose source: [app/services/mediapipe/base_detector.py]

    [BasePoseDetector] wraps MediaPipe.  The colour conversion and the
    inference ([cv2.cvtColor], [self.pose.process]) are outside this
    repository: their outcome is an input, [Inference].  Logging and
    drawing are not modelled. *)

Module Pose.

(** A MediaPipe landmark, with the attributes the code reads. *)
Record MPLandmark : Type := mkLandmark {
  lm_x : float;
  lm_y : float;
  lm_visibility : float
}.

(** What [cv2.cvtColor] and [self.pose.process] produced: an exception, or
    a result whose [pose_landmarks] is [None] or an object with the
    repeated field [landmark]. *)
Inductive Inference : Type :=
| InferenceRaised
| InferenceResult (pose_landmarks : option (list MPLandmark)).

(** Exceptions of this file: those of list indexing, and the division by
    zero of [sum(...) / len(...)]. *)
Inductive PyError : Type :=
| Builtin (e : exn)
| ZeroDivisionError.

Inductive outcome (A : Type) : Type :=
| Returns (a : A)
| Raises (e : PyError).
Arguments Returns {A} a.
Arguments Raises {A} e.

(** [self.ml_landmarks]. *)
Definition ml_landmarks : list nat :=
  [11; 12; 13; 14; 15; 16; 23; 24; 25; 26; 27; 28].

(** An [int] in a float operation.  The conversion goes through 63-bit
    machine integers and is exact for [0 <= z < 2^53]; the code applies it
    to list lengths and counts only. *)
Definition float_of_int (z : Z) : float :=
  PrimFloat.of_uint63 (Uint63.of_Z z).

(** [sum(1 for i in indices if landmark[i].visibility > 0.5)], with the
    running total. *)
Fixpoint sum_visible (landmark : list MPLandmark) (indices : list nat)
    (total : Z) : result Z :=
  match indices with
  | [] => Ok total
  | i :: rest =>
      match getitem landmark i with
      | Raise e => Raise e
      | Ok l =>
          sum_visible landmark rest
            (if (0.5 <? lm_visibility l)%float then (total + 1)%Z else total)
      end
  end.

(** [BasePoseDetector.process], from the outcome of the inference on.  Any
    exception inside the [try] block ends in [return None]. *)
Definition process (inference : Inference) : option (list MPLandmark) :=
  match inference with
  | InferenceRaised => None
  | InferenceResult None => None
  | InferenceResult (Some pose_landmarks) =>
      match sum_visible pose_landmarks ml_landmarks 0%Z with
      | Raise _ => None
      | Ok key_visible =>
          if (float_of_int (Z.of_nat (length ml_landmarks)) * 0.6
              <=? float_of_int key_visible)%float
          then Some pose_landmarks
          else None
      end
  end.

(** [BasePoseDetector.extract_ml_coordinates]. *)
Definition extract_ml_coordinates (landmarks : option (list MPLandmark))
  : list Landmark :=
  match landmarks with
  | None => []
  | Some landmark => map (fun lm => (lm_x lm, lm_y lm)) landmark
  end.

(** [[landmarks.landmark[i].visibility for i in indices]]. *)
Fixpoint visibilities (landmark : list MPLandmark) (indices : list nat)
  : result (list float) :=
  match indices with
  | [] => Ok []
  | i :: rest =>
      match getitem landmark i with
      | Raise e => Raise e
      | Ok l =>
          match visibilities landmark rest with
          | Raise e => Raise e
          | Ok vs => Ok (lm_visibility l :: vs)
          end
      end
  end.

Section Quality.

(** Python's [sum] on a list of floats.  Its rounding is the interpreter's
    business (plain left-to-right addition before Python 3.12, compensated
    summation since): it stays a parameter. *)
Variable py_sum : list float -> float.

(** [BasePoseDetector.get_landmark_quality]. *)
Definition get_landmark_quality (landmarks : option (list MPLandmark))
  : outcome float :=
  match landmarks with
  | None => Returns 0.0%float
  | Some landmark =>
      match visibilities landmark ml_landmarks with
      | Raise e => Raises (Builtin e)
      | Ok key_visibilities =>
          if (length key_visibilities =? 0)%nat then Raises ZeroDivisionError
          else Returns (py_sum key_visibilities
                        / float_of_int (Z.of_nat (length key_visibilities)))%float
      end
  end.

Variable hash_order : list Phase -> nat.

(** The part of the loop body of [scripts/realtime_detect.py] that feeds
    the push-up detector (from [pose_detector.process] to
    [pushup_detector.update]): it returns the record of the update, if one
    was made.  [inference] is the outcome of MediaPipe on the camera
    frame, [now] and [now_count] are the clock readings. *)
Definition track_frame (inference : Inference) (now now_count : float)
    (self : PushupDetector)
  : outcome (option UpdateResult * PushupDetector) :=
  match process inference with
  | None => Returns (None, self)
  | Some landmark =>
      let coords := extract_ml_coordinates (Some landmark) in
      match get_landmark_quality (Some landmark) with
      | Raises e => Raises e
      | Returns quality =>
          if (0.6 <? quality)%float then
            match update hash_order (mkFrame coords now now_count) self with
            | Raise e => Raises (Builtin e)
            | Ok (r, self') => Returns (Some r, self')
            end
          else Returns (None, self)
      end
  end.

End Quality.

(** Number of indices in bounds whose landmark is visible above 0.5. *)
Definition visible_count (landmark : list MPLandmark) (indices : list nat)
  : nat :=
  length (filter (fun i =>
                    match nth_error landmark i with
                    | Some l => (0.5 <? lm_visibility l)%float
                    | None => false
                    end) indices).

(** A pose of [n] landmarks at the centre of the image, all with
    visibility [v]. *)
Definition uniform_pose (n : nat) (v : float) : list MPLandmark :=
  repeat (mkLandmark 0.5 0.5 v) n.

End Pose.

(** ** Floating-point comparisons *)

Section FloatOrder.

Local Open Scope float_scope.

(** Nothing lies below a negative number and above a positive one; a NaN
    lies on neither side. *)
Lemma ltb_negative_positive_exclusive (x lo hi : float) mlo elo mhi ehi :
  Prim2SF lo = S754_finite true mlo elo ->
  Prim2SF hi = S754_finite false mhi ehi ->
  (x <? lo) = true -> (hi <? x) = false.
Proof.
  intros Hlo Hhi. rewrite !ltb_spec, Hlo, Hhi.
  unfold SFltb, SFcompare.
  destruct (Prim2SF x) as [s | s | | s m e]; try destruct s; congruence.
Qed.

Lemma wrist_thresholds_exclusive x : (x <? -0.15) = true -> (0.1 <? x) = false.
Proof. eapply ltb_negative_positive_exclusive; vm_compute; reflexivity. Qed.

Lemma elbow_thresholds_exclusive x : (x <? -0.05) = true -> (0.05 <? x) = false.
Proof. eapply ltb_negative_positive_exclusive; vm_compute; reflexivity. Qed.

Lemma nose_thresholds_exclusive x : (x <? -0.1) = true -> (0.05 <? x) = false.
Proof. eapply ltb_negative_positive_exclusive; vm_compute; reflexivity. Qed.

End FloatOrder.

(** ** Python list operations never raise inside their bounds *)

Section ListFacts.

Context {A : Type}.

Lemma getitem_nth (l : list A) (i : nat) (d : A) :
  (i < length l)%nat -> getitem l i = Ok (nth i l d).
Proof.
  intros Hi. unfold getitem.
  now rewrite (nth_error_nth' l d Hi).
Qed.

Lemma getitem_app_middle (pre post : list A) (x : A) :
  getitem (pre ++ x :: post) (length pre) = Ok x.
Proof.
  unfold getitem. now rewrite nth_error_app2, Nat.sub_diag by lia.
Qed.

Lemma getitem_last_last (l : list A) (d : A) :
  l <> [] -> getitem_last l = Ok (last l d).
Proof.
  intros Hne. destruct (exists_last Hne) as (front & x & ->).
  unfold getitem_last. now rewrite rev_app_distr, last_last.
Qed.

Lemma slice_last_length (n : nat) (l : list A) :
  length (slice_last n l) = Nat.min n (length l).
Proof. unfold slice_last. rewrite length_skipn. lia. Qed.

Lemma slice_last_app (n : nat) (older newest : list A) :
  (length newest <= n)%nat ->
  exists kept, slice_last n (older ++ newest) = kept ++ newest
               /\ (length kept + length newest <= n)%nat.
Proof.
  intros Hn. unfold slice_last. rewrite length_app.
  exists (skipn (length older + length newest - n) older). split.
  - rewrite skipn_app.
    replace (length older + length newest - n - length older)%nat with 0%nat
      by lia.
    reflexivity.
  - rewrite length_skipn. lia.
Qed.

Lemma deque_append_ends (maxlen : nat) (d : list A) (x : A) :
  (0 < maxlen)%nat ->
  exists kept, deque_append maxlen d x = kept ++ [x]
               /\ (kept = d \/ (kept = tl d /\ (maxlen <= length d)%nat)).
Proof.
  intros Hpos. unfold deque_append.
  destruct (maxlen <? length (d ++ [x]))%nat eqn:Hfull.
  - apply Nat.ltb_lt in Hfull. rewrite length_app in Hfull. simpl in Hfull.
    destruct d as [|y d]; [simpl in Hfull; lia|].
    exists d. simpl. split; [reflexivity|]. right. split; [reflexivity|].
    simpl in Hfull. lia.
  - exists d. auto.
Qed.

End ListFacts.

(** ** The transition loop *)

Lemma Phase_eqb_eq (p q : Phase) : Phase_eqb p q = true <-> p = q.
Proof. unfold Phase_eqb. destruct (Phase_eq_dec p q); split; congruence. Qed.

Lemma Phase_eqb_refl (p : Phase) : Phase_eqb p p = true.
Proof. now apply Phase_eqb_eq. Qed.

Lemma count_transitions_from (pre : list Phase) (a : Phase) (l : list Phase)
    (acc : Z) :
  count_transitions (pre ++ a :: l) (seq (S (length pre)) (length l)) acc
  = Ok (acc + adjacent_changes (a :: l))%Z.
Proof.
  revert pre a acc. induction l as [|b l IH]; intros pre a acc.
  - simpl. f_equal. lia.
  - cbn [length seq count_transitions].
    replace (pre ++ a :: b :: l) with ((pre ++ [a]) ++ b :: l)
      by now rewrite <- app_assoc.
    replace (S (length pre)) with (length (pre ++ [a]))
      by (rewrite length_app; simpl; lia).
    rewrite getitem_app_middle.
    replace (length (pre ++ [a]) - 1)%nat with (length pre)
      by (rewrite length_app; simpl; lia).
    rewrite <- app_assoc. cbn [app]. rewrite getitem_app_middle.
    replace (pre ++ a :: b :: l) with ((pre ++ [a]) ++ b :: l)
      by now rewrite <- app_assoc.
    rewrite IH. f_equal. cbn [adjacent_changes].
    destruct (Phase_eqb b a); cbn [negb]; lia.
Qed.

Lemma count_transitions_range (recent : list Phase) :
  count_transitions recent (range 1 (length recent)) 0
  = Ok (adjacent_changes recent).
Proof.
  destruct recent as [|a l]; [reflexivity|].
  unfold range. cbn [length]. rewrite Nat.sub_succ, Nat.sub_0_r.
  exact (count_transitions_from [] a l 0).
Qed.

(** ** Set iteration and the frequency maximum *)

Lemma insert_everywhere_perm {A : Type} (x : A) (l l' : list A) :
  In l' (insert_everywhere x l) -> Permutation (x :: l) l'.
Proof.
  revert l'. induction l as [|y t IH]; intros l' Hin.
  - destruct Hin as [<- | []]. apply Permutation_refl.
  - destruct Hin as [<- | Hin]; [apply Permutation_refl|].
    apply in_map_iff in Hin as (p & <- & Hp).
    eapply perm_trans; [apply perm_swap|].
    apply perm_skip. now apply IH.
Qed.

Lemma permutations_perm {A : Type} (l l' : list A) :
  In l' (permutations l) -> Permutation l l'.
Proof.
  revert l'. induction l as [|x t IH]; intros l' Hin.
  - destruct Hin as [<- | []]. apply perm_nil.
  - cbn [permutations] in Hin.
    apply in_flat_map in Hin as (p & Hp & Hin).
    eapply perm_trans; [apply perm_skip, IH, Hp|].
    now apply insert_everywhere_perm.
Qed.

Lemma set_iter_perm (hash_order : list Phase -> nat) (l : list Phase) :
  Permutation (nodup Phase_eq_dec l) (set_iter hash_order l).
Proof.
  unfold set_iter.
  destruct (Nat.lt_ge_cases (hash_order l)
              (length (permutations (nodup Phase_eq_dec l)))) as [Hlt | Hge].
  - apply permutations_perm. now apply nth_In.
  - rewrite nth_overflow by exact Hge. apply Permutation_refl.
Qed.

Lemma set_iter_In (hash_order : list Phase -> nat) (l : list Phase)
    (p : Phase) :
  In p (set_iter hash_order l) <-> In p l.
Proof.
  rewrite <- (nodup_In Phase_eq_dec l p). split; intros Hin.
  - eapply Permutation_in; [apply Permutation_sym, set_iter_perm | exact Hin].
  - eapply Permutation_in; [apply set_iter_perm | exact Hin].
Qed.

Lemma max_from_spec {K : Type} (l : list (K * Z)) (best : K * Z) :
  exists v, In (max_from best l, v) (best :: l)
            /\ forall kv, In kv (best :: l) -> (snd kv <= v)%Z.
Proof.
  revert best. induction l as [|kv l IH]; intros best.
  - exists (snd best). split.
    + left. now destruct best.
    + intros kv [<- | []]. lia.
  - cbn [max_from]. destruct (snd best <? snd kv)%Z eqn:Hcmp.
    + apply Z.ltb_lt in Hcmp.
      destruct (IH kv) as (v & Hin & Hmax). exists v. split.
      * now right.
      * intros kv' [<- | Hkv']; [|now apply Hmax].
        specialize (Hmax kv (or_introl eq_refl)). lia.
    + apply Z.ltb_ge in Hcmp.
      destruct (IH best) as (v & Hin & Hmax). exists v. split.
      * destruct Hin as [Hin | Hin]; [now left | now right; right].
      * intros kv' [<- | [<- | Hkv']].
        -- apply Hmax. now left.
        -- specialize (Hmax best (or_introl eq_refl)). lia.
        -- apply Hmax. now right.
Qed.

Lemma count_nonneg (l : list Phase) (p : Phase) : (0 <= count l p)%Z.
Proof. unfold count. lia. Qed.

Lemma count_absent (l : list Phase) (p : Phase) : ~ In p l -> count l p = 0%Z.
Proof.
  intros Hn. unfold count.
  now rewrite (proj1 (count_occ_not_In Phase_eq_dec l p) Hn).
Qed.

(** The tally never raises on a non-empty window, and its maximum is a label
    of the window that no other label outnumbers. *)
Lemma majority_spec (hash_order : list Phase -> nat) (recent : list Phase) :
  recent <> [] ->
  exists p, majority hash_order recent = Ok p
            /\ In p recent
            /\ forall q, (count recent q <= count recent p)%Z.
Proof.
  intros Hne. unfold majority.
  destruct (set_iter hash_order recent) as [|k ks] eqn:Hkeys.
  - destruct recent as [|a recent]; [congruence|].
    assert (Ha : In a (set_iter hash_order (a :: recent)))
      by (apply set_iter_In; now left).
    rewrite Hkeys in Ha. destruct Ha.
  - cbn [map max_by_value].
    destruct (max_from_spec (map (fun p => (p, count recent p)) ks)
                (k, count recent k)) as (v & Hin & Hmax).
    set (r := max_from (k, count recent k)
                (map (fun p => (p, count recent p)) ks)) in *.
    change ((k, count recent k) :: map (fun p => (p, count recent p)) ks)
      with (map (fun p => (p, count recent p)) (k :: ks)) in Hin, Hmax.
    rewrite <- Hkeys in Hin, Hmax.
    apply in_map_iff in Hin as (r' & Heq & Hr'). inversion Heq; subst r'.
    exists r. split; [reflexivity|]. split.
    + now apply set_iter_In in Hr'.
    + intros q. destruct (in_dec Phase_eq_dec q recent) as [Hq | Hq].
      * replace (count recent r) with v by congruence.
        apply (Hmax (q, count recent q)).
        apply in_map_iff. exists q. split; [reflexivity|].
        now apply set_iter_In.
      * rewrite (count_absent _ _ Hq). apply count_nonneg.
Qed.

Lemma count_occ_two (l : list Phase) (p q : Phase) :
  p <> q ->
  (count_occ Phase_eq_dec l p + count_occ Phase_eq_dec l q <= length l)%nat.
Proof.
  intros Hpq. induction l as [|a l IH]; [simpl; lia|].
  cbn [count_occ length].
  destruct (Phase_eq_dec a p), (Phase_eq_dec a q); subst; try congruence; lia.
Qed.

(** A label that fills more than half of the window wins whatever the
    iteration order. *)
Lemma majority_strict (hash_order : list Phase -> nat) (recent : list Phase)
    (p : Phase) :
  (Z.of_nat (length recent) < 2 * count recent p)%Z ->
  majority hash_order recent = Ok p.
Proof.
  intros Hhalf.
  assert (Hne : recent <> []).
  { intros ->. unfold count in Hhalf. simpl in Hhalf. lia. }
  destruct (majority_spec hash_order recent Hne) as (r & Hr & _ & Hmax).
  rewrite Hr. f_equal.
  destruct (Phase_eq_dec r p) as [-> | Hrp]; [reflexivity|].
  specialize (Hmax p). pose proof (count_occ_two recent r p Hrp).
  unfold count in *. lia.
Qed.

(** ** The methods compute the functional reading *)

Lemma smooth_ok (hash_order : list Phase -> nat) (window : list Phase)
    (raw : Phase) (s : PushupDetector) :
  (if (3 <=? length window)%nat
   then lift (majority hash_order (slice_last 3 window))
   else ret raw) s
  = Ok (smoothed hash_order window raw, s).
Proof.
  unfold smoothed. destruct (3 <=? length window)%nat eqn:Hlen; [|reflexivity].
  apply Nat.leb_le in Hlen.
  destruct (majority_spec hash_order (slice_last 3 window)) as (p & Hp & _).
  - intros Hnil. apply (f_equal (@length Phase)) in Hnil.
    rewrite slice_last_length in Hnil. cbn [length] in Hnil. lia.
  - unfold lift. now rewrite Hp.
Qed.

Lemma bind_lift_ok {A B : Type} (a : A) (k : A -> M B) :
  bind (lift (Ok a)) k = k a.
Proof. reflexivity. Qed.

Lemma smoothing_step (hash_order : list Phase -> nat) (raw : Phase)
    (s : PushupDetector) :
  (modify (fun self =>
     set_position_history
       (deque_append position_history_maxlen (position_history self) raw)
       self) ;;
   history <- read position_history ;;
   if (3 <=? length history)%nat
   then lift (majority hash_order (slice_last 3 history))
   else ret raw)%monad s
  = Ok (smoothed hash_order
          (deque_append position_history_maxlen (position_history s) raw) raw,
        set_position_history
          (deque_append position_history_maxlen (position_history s) raw) s).
Proof.
  unfold bind, modify, read. cbn [position_history set_position_history].
  apply smooth_ok.
Qed.

Lemma detect_pushup_phase_step (hash_order : list Phase -> nat)
    (lm : list Landmark) (s : PushupDetector) :
  detect_pushup_phase hash_order lm s
  = Ok (detected_label hash_order lm s, detected_state lm s).
Proof.
  unfold detect_pushup_phase, detected_label, detected_state.
  destruct (length lm =? 33)%nat eqn:Hlen; cbn [negb]; [|reflexivity].
  apply Nat.eqb_eq in Hlen.
  rewrite !(getitem_nth lm _ Classifier.default_landmark) by lia.
  rewrite !bind_lift_ok. cbv beta zeta.
  unfold window_after, Classifier.raw_label, Classifier.up_votes,
    Classifier.down_votes, Classifier.vote.
  change ((snd (nth 15 lm Classifier.default_landmark)
           + snd (nth 16 lm Classifier.default_landmark)) / 2
          - (snd (nth 11 lm Classifier.default_landmark)
             + snd (nth 12 lm Classifier.default_landmark)) / 2)%float
    with (Classifier.wrist_shoulder_diff lm).
  change ((snd (nth 13 lm Classifier.default_landmark)
           + snd (nth 14 lm Classifier.default_landmark)) / 2
          - (snd (nth 11 lm Classifier.default_landmark)
             + snd (nth 12 lm Classifier.default_landmark)) / 2)%float
    with (Classifier.elbow_shoulder_diff lm).
  change (snd (nth 0 lm Classifier.default_landmark)
          - (snd (nth 11 lm Classifier.default_landmark)
             + snd (nth 12 lm Classifier.default_landmark)) / 2)%float
    with (Classifier.nose_shoulder_diff lm).
  generalize (Classifier.wrist_shoulder_diff lm) as w.
  generalize (Classifier.elbow_shoulder_diff lm) as e.
  generalize (Classifier.nose_shoulder_diff lm) as n.
  intros n e w.
  pose proof (wrist_thresholds_exclusive w) as Hw.
  pose proof (elbow_thresholds_exclusive e) as He.
  pose proof (nose_thresholds_exclusive n) as Hn.
  destruct (w <? -0.15)%float;
    [rewrite (Hw eq_refl) | destruct (0.1 <? w)%float];
    (destruct (e <? -0.05)%float;
       [rewrite (He eq_refl) | destruct (0.05 <? e)%float]);
    (destruct (n <? -0.1)%float;
       [rewrite (Hn eq_refl) | destruct (0.05 <? n)%float]);
    cbv beta iota zeta; apply smoothing_step.
Qed.

Lemma check_rep_completion_step (now now_count : float) (s : PushupDetector) :
  check_rep_completion now now_count s
  = Ok (if negb (length (phase_history s) <? 4)%nat
           && negb (debounced now s)
           && completion_pattern (phase_history s)
        then (true,
              set_phase_history []
                (set_last_rep_time now_count
                   (set_rep_count (rep_count s + 1)%Z s)))
        else (false, s)).
Proof.
  unfold check_rep_completion, debounced, completion_pattern.
  unfold bind at 1. unfold read at 1.
  destruct (length (phase_history s) <? 4)%nat eqn:Hshort; [reflexivity|].
  apply Nat.ltb_ge in Hshort.
  unfold bind at 1 2. unfold read at 1 2.
  destruct (now - last_rep_time s <? min_rep_interval s)%float;
    [reflexivity|].
  cbn [negb andb].
  rewrite (getitem_last_last (slice_last 6 (phase_history s)) Neutral).
  2:{ intros Hnil. apply (f_equal (@length Phase)) in Hnil.
      rewrite slice_last_length in Hnil. cbn [length] in Hnil. lia. }
  rewrite bind_lift_ok.
  destruct (contains Down (slice_but_last (slice_last 6 (phase_history s)))
            && Phase_eqb (last (slice_last 6 (phase_history s)) Neutral) Up);
    [|reflexivity].
  rewrite count_transitions_range, bind_lift_ok.
  cbn [andb].
  destruct (2 <=? adjacent_changes (slice_last 6 (phase_history s)))%Z;
    reflexivity.
Qed.

(** [update] never raises and returns what [step] describes. *)
Lemma update_step (hash_order : list Phase -> nat) (f : Frame)
    (s : PushupDetector) :
  update hash_order f s = Ok (step hash_order f s).
Proof.
  unfold update, step, counts_rep.
  unfold bind at 1 2 3. unfold read at 1. unfold modify at 1.
  rewrite detect_pushup_phase_step.
  unfold bind. unfold modify at 1 2.
  rewrite check_rep_completion_step.
  unfold detected_label, detected_state, debounced, window_after.
  destruct (length (frame_landmarks f) =? 33)%nat;
    cbn [phase_history set_phase_history current_phase set_current_phase
         last_rep_time min_rep_interval rep_count set_last_phase
         position_history set_position_history];
    match goal with
    | |- context [if ?c then (true, _) else _] => destruct c
    end; reflexivity.
Qed.

Lemma run_steps (hash_order : list Phase -> nat) (frames : list Frame)
    (s : PushupDetector) :
  run hash_order frames s = Ok (steps hash_order frames s).
Proof.
  revert s. induction frames as [|f rest IH]; intros s; [reflexivity|].
  cbn [run steps]. unfold bind at 1. rewrite update_step.
  destruct (step hash_order f s) as [r s1]. cbn [fst snd].
  unfold bind. rewrite IH.
  now destruct (steps hash_order rest s1) as [rs s2].
Qed.

Lemma run_steps_pair (hash_order : list Phase -> nat) (frames : list Frame)
    (s : PushupDetector) :
  run hash_order frames s
  = Ok (fst (steps hash_order frames s), snd (steps hash_order frames s)).
Proof. rewrite run_steps. now destruct (steps hash_order frames s). Qed.

(** ** The phase classifier *)

(** C2.  For every landmark list of exactly 33 points,
    [detect_pushup_phase] succeeds, and the raw label it pushes into the
    smoothing window is the outcome of the weighted vote of the
    specification: wrist difference below -0.15 gives two up votes and above
    0.10 one down vote, elbow difference below -0.05 / above 0.05 one up /
    down vote, nose difference below -0.10 / above 0.05 one up / down vote;
    the label is Up when there are at least two up votes, else Down when
    there are at least two down votes, else Transition.  While the window
    holds fewer than three labels that raw label is also the label
    returned. *)
Theorem raw_label_is_weighted_vote (hash_order : list Phase -> nat)
    (lm : list Landmark) (s : PushupDetector) :
  length lm = 33%nat ->
  exists p s',
    detect_pushup_phase hash_order lm s = Ok (p, s')
    /\ position_history s'
       = deque_append position_history_maxlen (position_history s)
           (Classifier.decide
              (Classifier.up_votes (Classifier.wrist_shoulder_diff lm)
                 (Classifier.elbow_shoulder_diff lm)
                 (Classifier.nose_shoulder_diff lm))
              (Classifier.down_votes (Classifier.wrist_shoulder_diff lm)
                 (Classifier.elbow_shoulder_diff lm)
                 (Classifier.nose_shoulder_diff lm)))
    /\ ((length (position_history s') < 3)%nat ->
        p = Classifier.raw_label lm).
Proof.
  intros Hlen. rewrite detect_pushup_phase_step.
  eexists _, _. split; [reflexivity|].
  unfold detected_label, detected_state.
  rewrite (proj2 (Nat.eqb_eq _ _) Hlen).
  cbn [position_history set_position_history]. split; [reflexivity|].
  intros Hshort. unfold smoothed.
  now rewrite (proj2 (Nat.leb_gt _ _) Hshort).
Qed.

Lemma raw_label_is_weighted_vote_witness :
  exists p s',
    detect_pushup_phase Samples.nodup_order Samples.down_pose init = Ok (p, s')
    /\ position_history s'
       = deque_append position_history_maxlen (position_history init)
           (Classifier.decide
              (Classifier.up_votes
                 (Classifier.wrist_shoulder_diff Samples.down_pose)
                 (Classifier.elbow_shoulder_diff Samples.down_pose)
                 (Classifier.nose_shoulder_diff Samples.down_pose))
              (Classifier.down_votes
                 (Classifier.wrist_shoulder_diff Samples.down_pose)
                 (Classifier.elbow_shoulder_diff Samples.down_pose)
                 (Classifier.nose_shoulder_diff Samples.down_pose)))
    /\ ((length (position_history s') < 3)%nat ->
        p = Classifier.raw_label Samples.down_pose).
Proof.
  apply (raw_label_is_weighted_vote Samples.nodup_order Samples.down_pose init).
  reflexivity.
Defined.

(** The sample poses are classified as their names say. *)
Example sample_raw_labels :
  Classifier.raw_label Samples.down_pose = Down
  /\ Classifier.raw_label Samples.up_pose = Up
  /\ Classifier.raw_label Samples.level_pose = Transition.
Proof. vm_compute. auto. Qed.

(** C6.  A landmark list whose length is not 33 is classified Neutral
    without touching the detector and without an exception, and [update]
    on such a frame returns a record with phase Neutral that shows the
    detector's count and history; moreover [update] returns a record on
    every frame and every detector state. *)
Theorem malformed_frame_is_neutral (hash_order : list Phase -> nat)
    (f : Frame) (s : PushupDetector) :
  length (frame_landmarks f) <> 33%nat ->
  detect_pushup_phase hash_order (frame_landmarks f) s = Ok (Neutral, s)
  /\ (exists r s',
        update hash_order f s = Ok (r, s')
        /\ res_phase r = Neutral
        /\ current_phase s' = Neutral
        /\ position_history s' = position_history s
        /\ res_rep_count r = rep_count s'
        /\ res_phase_history r = phase_history s')
  /\ (forall g s0, exists r s',
        update hash_order g s0 = Ok (r, s')
        /\ res_phase r = current_phase s'
        /\ res_rep_count r = rep_count s'
        /\ res_phase_history r = phase_history s').
Proof.
  intros Hlen. apply Nat.eqb_neq in Hlen.
  split; [|split].
  - rewrite detect_pushup_phase_step.
    unfold detected_label, detected_state. now rewrite Hlen.
  - rewrite update_step. eexists _, _.
    split; [f_equal; apply surjective_pairing|].
    unfold step, detected_label, detected_state. rewrite Hlen.
    destruct (counts_rep _ _ _); cbn; auto 6.
  - intros g s0. rewrite update_step. eexists _, _.
    split; [f_equal; apply surjective_pairing|].
    unfold step, detected_state.
    destruct (length (frame_landmarks g) =? 33)%nat;
      destruct (counts_rep _ _ _); cbn; auto.
Qed.

Lemma malformed_frame_is_neutral_witness :
  detect_pushup_phase Samples.nodup_order [] init = Ok (Neutral, init)
  /\ (exists r s',
        update Samples.nodup_order (mkFrame [] 100 100) init = Ok (r, s')
        /\ res_phase r = Neutral
        /\ current_phase s' = Neutral
        /\ position_history s' = position_history init
        /\ res_rep_count r = rep_count s'
        /\ res_phase_history r = phase_history s')
  /\ (forall g s0, exists r s',
        update Samples.nodup_order g s0 = Ok (r, s')
        /\ res_phase r = current_phase s'
        /\ res_rep_count r = rep_count s'
        /\ res_phase_history r = phase_history s').
Proof.
  apply (malformed_frame_is_neutral Samples.nodup_order
           (mkFrame [] 100 100) init).
  simpl. discriminate.
Defined.

(** ** The smoother *)

(** C5.  Once the smoothing window holds at least three raw labels, the
    label returned is one of its last three entries and no label occurs
    more often among those three; a window ending Down, Down, Up gives
    Down, whatever the iteration order of the tally. *)
Theorem smoothed_label_is_most_frequent (hash_order : list Phase -> nat)
    (lm : list Landmark) (s : PushupDetector) :
  length lm = 33%nat ->
  exists p s',
    detect_pushup_phase hash_order lm s = Ok (p, s')
    /\ position_history s'
       = deque_append position_history_maxlen (position_history s)
           (Classifier.raw_label lm)
    /\ ((3 <= length (position_history s'))%nat ->
        In p (slice_last 3 (position_history s'))
        /\ forall q, (count (slice_last 3 (position_history s')) q
                      <= count (slice_last 3 (position_history s')) p)%Z)
    /\ (forall older,
          position_history s' = older ++ [Down; Down; Up] -> p = Down).
Proof.
  intros Hlen. rewrite detect_pushup_phase_step.
  eexists _, _. split; [reflexivity|].
  unfold detected_label, detected_state.
  rewrite (proj2 (Nat.eqb_eq _ _) Hlen).
  cbn [position_history set_position_history]. fold (window_after lm s).
  split; [reflexivity|]. split.
  - intros Hfull. unfold smoothed.
    rewrite (proj2 (Nat.leb_le _ _) Hfull).
    destruct (majority_spec hash_order (slice_last 3 (window_after lm s)))
      as (p & -> & Hin & Hmax); [|now split].
    intros Hnil. apply (f_equal (@length Phase)) in Hnil.
    rewrite slice_last_length in Hnil. cbn [length] in Hnil. lia.
  - intros older Hwin. unfold smoothed. rewrite Hwin.
    replace (3 <=? length (older ++ [Down; Down; Up]))%nat with true
      by (symmetry; apply Nat.leb_le; rewrite length_app; simpl; lia).
    destruct (slice_last_app 3 older [Down; Down; Up]) as (kept & -> & Hkept);
      [simpl; lia|].
    destruct kept; [|simpl in Hkept; lia].
    now rewrite (majority_strict hash_order _ Down).
Qed.

Lemma smoothed_label_is_most_frequent_witness :
  exists p s',
    detect_pushup_phase Samples.reverse_order Samples.up_pose
      (set_position_history [Down; Down] init) = Ok (p, s')
    /\ position_history s'
       = deque_append position_history_maxlen
           (position_history (set_position_history [Down; Down] init))
           (Classifier.raw_label Samples.up_pose)
    /\ ((3 <= length (position_history s'))%nat ->
        In p (slice_last 3 (position_history s'))
        /\ forall q, (count (slice_last 3 (position_history s')) q
                      <= count (slice_last 3 (position_history s')) p)%Z)
    /\ (forall older,
          position_history s' = older ++ [Down; Down; Up] -> p = Down).
Proof.
  apply (smoothed_label_is_most_frequent Samples.reverse_order Samples.up_pose
           (set_position_history [Down; Down] init)).
  reflexivity.
Defined.

(** The window Down, Down, Up of the specification, run through the
    method. *)
Example down_down_up_smooths_to_down :
  detect_pushup_phase Samples.reverse_order Samples.up_pose
    (set_position_history [Down; Down] init)
  = Ok (Down, set_position_history [Down; Down; Up] init).
Proof. vm_compute. reflexivity. Qed.

(** ** The repetition counter *)

Lemma completion_pattern_down_down_transition_up (older : list Phase) :
  completion_pattern (older ++ [Down; Down; Transition; Up]) = true.
Proof.
  unfold completion_pattern.
  destruct (slice_last_app 6 older [Down; Down; Transition; Up])
    as (kept & -> & Hkept); [simpl; lia|].
  destruct kept as [|a [|b [|c kept]]]; cbn [length] in Hkept; try lia.
  - reflexivity.
  - destruct a; reflexivity.
  - destruct a, b; reflexivity.
Qed.

Lemma detected_label_of_detect (hash_order : list Phase -> nat)
    (lm : list Landmark) (s s1 : PushupDetector) (p : Phase) :
  detect_pushup_phase hash_order lm s = Ok (p, s1) ->
  detected_label hash_order lm s = p.
Proof. rewrite detect_pushup_phase_step. congruence. Qed.

(** C1.  When the history before the update ends Down, Down, Transition,
    the frame's smoothed label is Up (so that the history checked ends
    Down, Down, Transition, Up) and the debounce interval has elapsed,
    [update] returns [rep_completed = true], the count grows by exactly
    one, in the detector and in the returned record, the time of the rep is
    recorded and the history is cleared. *)
Theorem rep_completes_on_down_down_transition_up
    (hash_order : list Phase -> nat) (f : Frame) (s s1 : PushupDetector)
    (older : list Phase) :
  phase_history s = older ++ [Down; Down; Transition] ->
  detect_pushup_phase hash_order (frame_landmarks f) s = Ok (Up, s1) ->
  (frame_time_check f - last_rep_time s <? min_rep_interval s)%float = false ->
  exists r s',
    update hash_order f s = Ok (r, s')
    /\ res_phase r = Up
    /\ res_rep_completed r = true
    /\ rep_count s' = (rep_count s + 1)%Z
    /\ res_rep_count r = (rep_count s + 1)%Z
    /\ last_rep_time s' = frame_time_count f
    /\ phase_history s' = []
    /\ res_phase_history r = [].
Proof.
  intros Hhist Hdet Hdeb. apply detected_label_of_detect in Hdet.
  rewrite update_step. eexists _, _.
  split; [f_equal; apply surjective_pairing|].
  unfold step, counts_rep, debounced. rewrite Hdet, Hdeb, Hhist.
  assert (Hends : exists front,
             deque_append phase_history_maxlen
               (older ++ [Down; Down; Transition]) Up
             = front ++ [Down; Down; Transition; Up]).
  { destruct (deque_append_ends phase_history_maxlen
                (older ++ [Down; Down; Transition]) Up)
      as (kept & -> & [-> | [-> Hfull]]).
    - unfold phase_history_maxlen. lia.
    - exists older. now rewrite <- app_assoc.
    - destruct older as [|a older].
      + unfold phase_history_maxlen in Hfull. simpl in Hfull. lia.
      + exists older. cbn [app tl]. now rewrite <- app_assoc. }
  destruct Hends as (front & ->).
  rewrite completion_pattern_down_down_transition_up.
  replace (length (front ++ [Down; Down; Transition; Up]) <? 4)%nat
    with false
    by (symmetry; apply Nat.ltb_ge; rewrite length_app; simpl; lia).
  cbn. auto 8.
Qed.

Lemma rep_completes_on_down_down_transition_up_witness :
  exists r s',
    update Samples.nodup_order (Samples.at_time Samples.up_pose 100)
      (set_phase_history [Down; Down; Transition]
         (set_position_history [Up; Up] init)) = Ok (r, s')
    /\ res_phase r = Up
    /\ res_rep_completed r = true
    /\ rep_count s' = (0 + 1)%Z
    /\ res_rep_count r = (0 + 1)%Z
    /\ last_rep_time s' = 100%float
    /\ phase_history s' = []
    /\ res_phase_history r = [].
Proof.
  apply (rep_completes_on_down_down_transition_up Samples.nodup_order
           (Samples.at_time Samples.up_pose 100)
           (set_phase_history [Down; Down; Transition]
              (set_position_history [Up; Up] init))
           (set_phase_history [Down; Down; Transition]
              (set_position_history [Up; Up; Up] init))
           []).
  - reflexivity.
  - vm_compute. reflexivity.
  - vm_compute. reflexivity.
Defined.

(** C10.  Whenever [update] returns [rep_completed = true], the history in
    the returned record is empty, as is the detector's own: [count_rep]
    clears it before the record is built. *)
Theorem completed_rep_returns_empty_history (hash_order : list Phase -> nat)
    (f : Frame) (s s' : PushupDetector) (r : UpdateResult) :
  update hash_order f s = Ok (r, s') ->
  res_rep_completed r = true ->
  res_phase_history r = [] /\ phase_history s' = [].
Proof.
  rewrite update_step. unfold step.
  destruct (counts_rep _ _ _); intros Hstep Hdone;
    inversion Hstep; subst; cbn in *; [auto | discriminate].
Qed.

Lemma completed_rep_returns_empty_history_witness :
  res_phase_history
    (mkResult Up 1 true []) = []
  /\ phase_history
       (mkDetector 1 Up Neutral [] 100 1 [Up; Up; Up]) = [].
Proof.
  apply (completed_rep_returns_empty_history Samples.nodup_order
           (Samples.at_time Samples.up_pose 100)
           (set_phase_history [Down; Down; Transition]
              (set_position_history [Up; Up] init))).
  - vm_compute. reflexivity.
  - reflexivity.
Defined.

(** One [update] leaves the count alone or adds one to it. *)
Lemma step_rep_count (hash_order : list Phase -> nat) (f : Frame)
    (s : PushupDetector) :
  res_rep_count (fst (step hash_order f s))
  = rep_count (snd (step hash_order f s))
  /\ (rep_count (snd (step hash_order f s)) = rep_count s
      \/ rep_count (snd (step hash_order f s)) = (rep_count s + 1)%Z).
Proof.
  unfold step, detected_state.
  destruct (length (frame_landmarks f) =? 33)%nat;
    destruct (counts_rep _ _ _); cbn; auto.
Qed.

Lemma steps_rep_count (hash_order : list Phase -> nat) (frames : list Frame)
    (s : PushupDetector) :
  (rep_count s <= rep_count (snd (steps hash_order frames s))
   <= rep_count s + Z.of_nat (length frames))%Z
  /\ Forall (fun r => (rep_count s <= res_rep_count r)%Z)
       (fst (steps hash_order frames s)).
Proof.
  revert s. induction frames as [|f rest IH]; intros s.
  - cbn. split; [lia | constructor].
  - cbn [steps fst snd length].
    destruct (step_rep_count hash_order f s) as (Hres & Hone).
    destruct (IH (snd (step hash_order f s))) as (Hrange & Hall).
    split; [lia|]. constructor; [lia|].
    eapply Forall_impl; [|exact Hall]. cbn beta. intros r Hr. lia.
Qed.

(** C9.  [rep_count] is monotonic and never negative: every [update]
    returns, leaving the count unchanged or larger by exactly one; over any
    sequence of updates the count never decreases and grows by at most the
    number of frames; and from a fresh detector the count and every count
    reported stay at or above zero. *)
Theorem rep_count_monotonic_nonnegative (hash_order : list Phase -> nat) :
  (forall f s, exists r s',
      update hash_order f s = Ok (r, s')
      /\ res_rep_count r = rep_count s'
      /\ (rep_count s' = rep_count s \/ rep_count s' = (rep_count s + 1)%Z))
  /\ (forall frames s, exists rs s',
        run hash_order frames s = Ok (rs, s')
        /\ (rep_count s <= rep_count s'
            <= rep_count s + Z.of_nat (length frames))%Z)
  /\ (forall frames, exists rs s',
        run hash_order frames init = Ok (rs, s')
        /\ (0 <= rep_count s')%Z
        /\ Forall (fun r => (0 <= res_rep_count r)%Z) rs).
Proof.
  split; [|split].
  - intros f s. rewrite update_step. eexists _, _.
    split; [f_equal; apply surjective_pairing|].
    apply step_rep_count.
  - intros frames s. rewrite run_steps. eexists _, _.
    split; [f_equal; apply surjective_pairing|].
    apply steps_rep_count.
  - intros frames. rewrite run_steps. eexists _, _.
    split; [f_equal; apply surjective_pairing|].
    destruct (steps_rep_count hash_order frames init) as (Hrange & Hall).
    split; [exact (proj1 Hrange) | exact Hall].
Qed.

(** ** Debounce *)

(** An [update] whose clock reading is within [min_rep_interval] of the last
    counted rep counts nothing and changes neither the count nor the time
    of the last rep. *)
Lemma step_debounced (hash_order : list Phase -> nat) (f : Frame)
    (s : PushupDetector) :
  debounced (frame_time_check f) s = true ->
  res_rep_completed (fst (step hash_order f s)) = false
  /\ res_rep_count (fst (step hash_order f s)) = rep_count s
  /\ rep_count (snd (step hash_order f s)) = rep_count s
  /\ last_rep_time (snd (step hash_order f s)) = last_rep_time s
  /\ min_rep_interval (snd (step hash_order f s)) = min_rep_interval s.
Proof.
  intros Hdeb. unfold step, counts_rep. rewrite Hdeb.
  rewrite andb_false_r. cbn [andb fst snd].
  unfold detected_state.
  destruct (length (frame_landmarks f) =? 33)%nat; cbn; auto.
Qed.

Lemma steps_debounced (hash_order : list Phase -> nat) (frames : list Frame)
    (s : PushupDetector) :
  Forall (fun g => debounced (frame_time_check g) s = true) frames ->
  Forall (fun r => res_rep_completed r = false /\ res_rep_count r = rep_count s)
    (fst (steps hash_order frames s))
  /\ rep_count (snd (steps hash_order frames s)) = rep_count s
  /\ last_rep_time (snd (steps hash_order frames s)) = last_rep_time s
  /\ min_rep_interval (snd (steps hash_order frames s)) = min_rep_interval s.
Proof.
  revert s. induction frames as [|f rest IH]; intros s Hall.
  - cbn. auto.
  - inversion Hall as [|? ? Hf Hrest]; subst.
    destruct (step_debounced hash_order f s Hf)
      as (Hdone & Hres & Hcount & Hlast & Hmin).
    cbn [steps fst snd].
    destruct (IH (snd (step hash_order f s))) as (Hrs & Hc & Hl & Hm).
    + eapply Forall_impl; [|exact Hrest]. cbn beta. intros g Hg.
      unfold debounced in *. now rewrite Hlast, Hmin.
    + repeat split; try congruence.
      constructor; [auto|].
      eapply Forall_impl; [|exact Hrs]. cbn beta.
      intros r [Hr1 Hr2]. split; congruence.
Qed.

(** A counted rep records the clock reading of [count_rep]. *)
Lemma step_completed (hash_order : list Phase -> nat) (f : Frame)
    (s : PushupDetector) :
  res_rep_completed (fst (step hash_order f s)) = true ->
  last_rep_time (snd (step hash_order f s)) = frame_time_count f
  /\ min_rep_interval (snd (step hash_order f s)) = min_rep_interval s
  /\ rep_count (snd (step hash_order f s)) = (rep_count s + 1)%Z
  /\ res_rep_count (fst (step hash_order f s)) = (rep_count s + 1)%Z.
Proof.
  unfold step, detected_state.
  destruct (length (frame_landmarks f) =? 33)%nat;
    destruct (counts_rep _ _ _); cbn; intros Hdone;
    try discriminate; auto.
Qed.

(** C4.  After an [update] that counted a rep, every later [update] whose
    clock reading is less than 1.0 s ([min_rep_interval]) past the time
    recorded for that rep returns [rep_completed = false] and leaves the
    count as the first call left it, whatever its history looks like: of
    two completion-eligible updates that close together only the first is
    counted. *)
Theorem debounce_counts_only_first (hash_order : list Phase -> nat)
    (first second : Frame) (between : list Frame)
    (s0 s1 : PushupDetector) (r1 : UpdateResult) :
  min_rep_interval s0 = 1.0%float ->
  update hash_order first s0 = Ok (r1, s1) ->
  res_rep_completed r1 = true ->
  Forall (fun g =>
            (frame_time_check g - frame_time_count first <? 1.0)%float = true)
    (between ++ [second]) ->
  exists rs s2 r2 s3,
    run hash_order between s1 = Ok (rs, s2)
    /\ update hash_order second s2 = Ok (r2, s3)
    /\ Forall (fun r => res_rep_completed r = false) rs
    /\ res_rep_completed r2 = false
    /\ res_rep_count r2 = res_rep_count r1
    /\ rep_count s3 = rep_count s1
    /\ last_rep_time s3 = frame_time_count first.
Proof.
  intros Hmin Hfirst Hdone Hclose.
  rewrite update_step in Hfirst. inversion Hfirst as [Hstep]. clear Hfirst.
  assert (Hr1 : r1 = fst (step hash_order first s0)) by now rewrite Hstep.
  assert (Hs1 : s1 = snd (step hash_order first s0)) by now rewrite Hstep.
  rewrite Hr1 in Hdone.
  destruct (step_completed hash_order first s0 Hdone)
    as (Hlast & Hmin1 & Hcount & Hres).
  rewrite <- Hs1 in Hlast, Hmin1, Hcount. rewrite <- Hr1 in Hres.
  apply Forall_app in Hclose as (Hbetween & Hsecond).
  apply Forall_inv in Hsecond. rename Hsecond into Hsec.
  destruct (steps_debounced hash_order between s1) as (Hrs & Hc & Hl & Hm).
  { eapply Forall_impl; [|exact Hbetween]. cbn beta. intros g Hg.
    unfold debounced. now rewrite Hlast, Hmin1, Hmin. }
  destruct (step_debounced hash_order second
              (snd (steps hash_order between s1)))
    as (Hdone2 & Hres2 & Hcount2 & Hlast2 & _).
  { unfold debounced. now rewrite Hl, Hm, Hlast, Hmin1, Hmin. }
  rewrite run_steps.
  exists (fst (steps hash_order between s1)),
         (snd (steps hash_order between s1)),
         (fst (step hash_order second (snd (steps hash_order between s1)))),
         (snd (step hash_order second (snd (steps hash_order between s1)))).
  rewrite update_step.
  split; [f_equal; apply surjective_pairing|].
  split; [f_equal; apply surjective_pairing|].
  split; [eapply Forall_impl; [|exact Hrs]; cbn beta; intros r Hr; apply Hr|].
  repeat split; congruence.
Qed.

Lemma debounce_counts_only_first_witness :
  exists rs s2 r2 s3,
    run Samples.nodup_order Samples.hurried_frames
      (mkDetector 1 Up Neutral [] 100 1 [Up; Up; Up]) = Ok (rs, s2)
    /\ update Samples.nodup_order Samples.hurried_last s2 = Ok (r2, s3)
    /\ Forall (fun r => res_rep_completed r = false) rs
    /\ res_rep_completed r2 = false
    /\ res_rep_count r2 = res_rep_count (mkResult Up 1 true [])
    /\ rep_count s3 = rep_count (mkDetector 1 Up Neutral [] 100 1 [Up; Up; Up])
    /\ last_rep_time s3
       = frame_time_count (Samples.at_time Samples.up_pose 100).
Proof.
  apply (debounce_counts_only_first Samples.nodup_order
           (Samples.at_time Samples.up_pose 100) Samples.hurried_last
           Samples.hurried_frames Samples.about_to_complete).
  - reflexivity.
  - vm_compute. reflexivity.
  - reflexivity.
  - repeat constructor.
Defined.

(** The hurried second update is completion-eligible: its history is Up,
    Down, Down, Transition, Transition, Up, and the same frame read a
    second and a half after the first rep is counted. *)
Example second_rep_needs_the_interval :
  let after_first :=
    snd (steps Samples.nodup_order Samples.hurried_frames
           (mkDetector 1 Up Neutral [] 100 1 [Up; Up; Up])) in
  completion_pattern
    (deque_append phase_history_maxlen (phase_history after_first) Up) = true
  /\ res_rep_completed
       (fst (step Samples.nodup_order Samples.hurried_last after_first))
     = false
  /\ res_rep_completed
       (fst (step Samples.nodup_order Samples.patient_last after_first))
     = true
  /\ rep_count
       (snd (step Samples.nodup_order Samples.patient_last after_first))
     = 2%Z.
Proof. vm_compute. auto. Qed.

(** ** Reset *)

Lemma step_same_observable (hash_order : list Phase -> nat) (f : Frame)
    (a b : PushupDetector) :
  same_observable a b ->
  fst (step hash_order f a) = fst (step hash_order f b)
  /\ same_observable (snd (step hash_order f a)) (snd (step hash_order f b)).
Proof.
  destruct a as [ca pa la ha ta ia wa], b as [cb pb lb hb tb ib wb].
  unfold same_observable. cbn. intros (-> & -> & -> & -> & ->).
  unfold step, counts_rep, debounced, detected_label, detected_state,
    window_after.
  cbn [rep_count current_phase phase_history last_rep_time min_rep_interval
       position_history set_last_phase].
  destruct (length (frame_landmarks f) =? 33)%nat;
    match goal with
    | |- context [if ?c then _ else _] => destruct c
    end; cbn; auto 6.
Qed.

Lemma steps_same_observable (hash_order : list Phase -> nat)
    (frames : list Frame) (a b : PushupDetector) :
  same_observable a b ->
  fst (steps hash_order frames a) = fst (steps hash_order frames b).
Proof.
  revert a b. induction frames as [|f rest IH]; intros a b Hab.
  - reflexivity.
  - cbn [steps fst].
    destruct (step_same_observable hash_order f a b Hab) as (-> & Hnext).
    f_equal. now apply IH.
Qed.

(** C7.  [reset] never raises; afterwards the count is 0, the smoothing
    window and the rep history are empty, the time of the last rep is 0 and
    [min_rep_interval] is what it was.  On a detector whose
    [min_rep_interval] is the constructor's 1.0, every sequence of updates
    after [reset] returns the same records as on a fresh detector
    ([current_phase] and [last_phase], which [reset] leaves alone, never
    reach a later record). *)
Theorem reset_behaves_like_fresh (hash_order : list Phase -> nat)
    (s : PushupDetector) (frames : list Frame) :
  min_rep_interval s = 1.0%float ->
  exists sr,
    reset s = Ok (tt, sr)
    /\ rep_count sr = 0%Z
    /\ phase_history sr = []
    /\ position_history sr = []
    /\ last_rep_time sr = 0%float
    /\ min_rep_interval sr = min_rep_interval s
    /\ exists rs s1 s2,
         run hash_order frames sr = Ok (rs, s1)
         /\ run hash_order frames init = Ok (rs, s2).
Proof.
  intros Hmin. eexists. split; [reflexivity|].
  cbn [rep_count phase_history position_history last_rep_time
       min_rep_interval set_rep_count set_phase_history
       set_position_history set_last_rep_time].
  repeat (split; [reflexivity|]).
  rewrite !run_steps.
  eexists _, _, _. split; [f_equal; apply surjective_pairing|].
  f_equal. rewrite (surjective_pairing (steps hash_order frames init)).
  f_equal. symmetry. apply steps_same_observable.
  unfold same_observable. cbn. auto.
Qed.

Lemma reset_behaves_like_fresh_witness :
  exists sr,
    reset (mkDetector 1 Up Neutral [] 100 1 [Up; Up; Up]) = Ok (tt, sr)
    /\ rep_count sr = 0%Z
    /\ phase_history sr = []
    /\ position_history sr = []
    /\ last_rep_time sr = 0%float
    /\ min_rep_interval sr
       = min_rep_interval (mkDetector 1 Up Neutral [] 100 1 [Up; Up; Up])
    /\ exists rs s1 s2,
         run Samples.nodup_order Samples.down_batch sr = Ok (rs, s1)
         /\ run Samples.nodup_order Samples.down_batch init = Ok (rs, s2).
Proof.
  apply (reset_behaves_like_fresh Samples.nodup_order
           (mkDetector 1 Up Neutral [] 100 1 [Up; Up; Up])
           Samples.down_batch).
  reflexivity.
Defined.

(** What [reset] leaves alone shows in the detector but not in a record:
    after the same frame, a reset detector and a fresh one differ in
    [last_phase] only. *)
Example reset_keeps_current_phase :
  let sr := set_last_rep_time 0
              (set_position_history []
                 (set_phase_history []
                    (set_rep_count 0
                       (mkDetector 1 Up Neutral [] 100 1 [Up; Up; Up])))) in
  reset (mkDetector 1 Up Neutral [] 100 1 [Up; Up; Up]) = Ok (tt, sr)
  /\ current_phase sr = Up
  /\ current_phase init = Neutral
  /\ last_phase (snd (step Samples.nodup_order
                        (Samples.at_time Samples.down_pose 200) sr)) = Up
  /\ last_phase (snd (step Samples.nodup_order
                        (Samples.at_time Samples.down_pose 200) init))
     = Neutral
  /\ fst (step Samples.nodup_order (Samples.at_time Samples.down_pose 200) sr)
     = fst (step Samples.nodup_order
              (Samples.at_time Samples.down_pose 200) init).
Proof. vm_compute. auto 7. Qed.

(** ** Static input *)

Lemma adjacent_changes_constant (p : Phase) (l : list Phase) :
  Forall (eq p) l -> adjacent_changes l = 0%Z.
Proof.
  induction l as [|a l IH]; intros Hall; [reflexivity|].
  destruct l as [|b l]; [reflexivity|].
  inversion Hall as [|? ? Ha Hrest]; subst.
  inversion Hrest as [|? ? Hb _]; subst.
  change (adjacent_changes (b :: b :: l))
    with ((if Phase_eqb b b then 0 else 1) + adjacent_changes (b :: l))%Z.
  now rewrite Phase_eqb_refl, (IH Hrest).
Qed.

Lemma Forall_slice_last {A : Type} (P : A -> Prop) (n : nat) (l : list A) :
  Forall P l -> Forall P (slice_last n l).
Proof.
  intros Hall. unfold slice_last.
  rewrite <- (firstn_skipn (length l - n) l) in Hall.
  now apply Forall_app in Hall.
Qed.

(** A history that repeats one label has no transition, hence no
    completion. *)
Lemma completion_pattern_constant (p : Phase) (history : list Phase) :
  Forall (eq p) history -> completion_pattern history = false.
Proof.
  intros Hall. unfold completion_pattern.
  rewrite (adjacent_changes_constant p) by now apply Forall_slice_last.
  apply andb_false_r.
Qed.

Lemma steps_constant_label (hash_order : list Phase -> nat)
    (frames : list Frame) (s : PushupDetector) (label : Phase) :
  Forall (eq label) (phase_history s) ->
  Forall (fun r => res_phase r = label) (fst (steps hash_order frames s)) ->
  Forall (fun r => res_rep_completed r = false)
    (fst (steps hash_order frames s))
  /\ rep_count (snd (steps hash_order frames s)) = rep_count s.
Proof.
  revert s. induction frames as [|f rest IH]; intros s Hhist Hlabels.
  - cbn. auto.
  - cbn [steps fst snd] in *.
    apply Forall_cons_iff in Hlabels as [Hlabel Hrest].
    assert (Hidle : counts_rep f s
              (deque_append phase_history_maxlen (phase_history s)
                 (detected_label hash_order (frame_landmarks f) s)) = false).
    { unfold counts_rep.
      rewrite (completion_pattern_constant label); [apply andb_false_r|].
      destruct (deque_append_ends phase_history_maxlen (phase_history s)
                  (detected_label hash_order (frame_landmarks f) s))
        as (kept & -> & Hkept); [unfold phase_history_maxlen; lia|].
      apply Forall_app. split.
      - destruct Hkept as [-> | [-> _]]; [exact Hhist|].
        destruct (phase_history s); [constructor|].
        now inversion Hhist.
      - constructor; [|constructor].
        revert Hlabel. unfold step.
        destruct (counts_rep _ _ _); cbn; congruence. }
    revert Hlabel Hrest IH. unfold step. rewrite Hidle. cbn [fst snd].
    cbn [res_phase res_rep_completed]. intros Hlabel Hrest IH.
    match type of Hrest with
    | Forall _ (fst (steps _ _ ?next)) =>
        destruct (IH next) as (Hdone & Hcount); [|exact Hrest|]
    end.
    + cbn [phase_history set_phase_history]. rewrite Hlabel.
      destruct (deque_append_ends phase_history_maxlen (phase_history s)
                  label) as (kept & -> & Hkept);
        [unfold phase_history_maxlen; lia|].
      apply Forall_app. split; [|repeat constructor].
      destruct Hkept as [-> | [-> _]]; [exact Hhist|].
      destruct (phase_history s); [constructor|]. now inversion Hhist.
    + split; [constructor; [reflexivity | exact Hdone]|].
      rewrite Hcount. unfold detected_state.
      destruct (length (frame_landmarks f) =? 33)%nat; reflexivity.
Qed.

(** C8.  On a fresh detector, a sequence of frames all of whose smoothed
    labels are one and the same label never completes a rep: no [update]
    returns [rep_completed = true] and the count stays 0, since a history
    that repeats a single label has no transition. *)
Theorem constant_label_never_completes (hash_order : list Phase -> nat)
    (frames : list Frame) (label : Phase) (rs : list UpdateResult)
    (s' : PushupDetector) :
  run hash_order frames init = Ok (rs, s') ->
  Forall (fun r => res_phase r = label) rs ->
  Forall (fun r => res_rep_completed r = false) rs
  /\ rep_count s' = 0%Z.
Proof.
  rewrite run_steps. intros Hrun Hlabels. inversion Hrun as [Hsteps].
  assert (Hrs : rs = fst (steps hash_order frames init)) by now rewrite Hsteps.
  assert (Hs' : s' = snd (steps hash_order frames init)) by now rewrite Hsteps.
  subst rs s'.
  apply (steps_constant_label hash_order frames init label);
    [constructor | exact Hlabels].
Qed.

Lemma constant_label_never_completes_witness :
  Forall (fun r => res_rep_completed r = false)
    (fst (steps Samples.nodup_order Samples.down_batch init))
  /\ rep_count (snd (steps Samples.nodup_order Samples.down_batch init)) = 0%Z.
Proof.
  apply (constant_label_never_completes Samples.nodup_order
           Samples.down_batch Down).
  - apply run_steps_pair.
  - vm_compute. repeat constructor.
Defined.

(** ** End to end: a batch of Down frames, then a batch of Up frames *)

Lemma smoothed_short (hash_order : list Phase -> nat) (window : list Phase)
    (raw : Phase) :
  (3 <=? length window)%nat = false ->
  smoothed hash_order window raw = raw.
Proof. intros Hshort. unfold smoothed. now rewrite Hshort. Qed.

Lemma smoothed_strict (hash_order : list Phase -> nat) (window : list Phase)
    (raw p : Phase) :
  (3 <=? length window)%nat = true ->
  (Z.of_nat (length (slice_last 3 window))
   <? 2 * count (slice_last 3 window) p)%Z = true ->
  smoothed hash_order window raw = p.
Proof.
  intros Hfull Hhalf. unfold smoothed. rewrite Hfull.
  apply Z.ltb_lt in Hhalf. now rewrite (majority_strict hash_order _ p).
Qed.

(** An [update] on a well-shaped frame whose history does not show the
    completion pattern: nothing is counted, whatever the clock says. *)
Lemma steps_idle_cons (hash_order : list Phase -> nat) (f : Frame)
    (rest : list Frame) (raw label : Phase)
    (c : Z) (p lp : Phase) (h w h' w' : list Phase) (t i : float)
    (rs : list UpdateResult) (s' : PushupDetector) :
  raw_classified raw f ->
  deque_append position_history_maxlen w raw = w' ->
  smoothed hash_order w' raw = label ->
  deque_append phase_history_maxlen h label = h' ->
  completion_pattern h' = false ->
  steps hash_order rest (mkDetector c label p h' t i w') = (rs, s') ->
  steps hash_order (f :: rest) (mkDetector c p lp h t i w)
  = (mkResult label c false h' :: rs, s').
Proof.
  intros [Hlen Hraw] Hw Hsmooth Hh Hpattern Hrest.
  cbn [steps].
  assert (Hstep : step hash_order f (mkDetector c p lp h t i w)
                  = (mkResult label c false h',
                     mkDetector c label p h' t i w')).
  { unfold step, counts_rep, detected_label, detected_state, window_after.
    cbn [position_history phase_history rep_count current_phase
         set_last_phase].
    rewrite (proj2 (Nat.eqb_eq _ _) Hlen), Hraw, Hw, Hsmooth, Hh, Hpattern.
    rewrite andb_false_r. reflexivity. }
  rewrite Hstep. cbn [fst snd]. now rewrite Hrest.
Qed.

Ltac idle_step raw label :=
  eapply (steps_idle_cons _ _ _ raw label);
  [ eassumption
  | vm_compute; reflexivity
  | first [ apply smoothed_short; vm_compute; reflexivity
          | apply smoothed_strict; vm_compute; reflexivity ]
  | vm_compute; reflexivity
  | vm_compute; reflexivity
  | ].

(** C3, as the code has it.  Five frames raw-classified Down followed by
    five frames raw-classified Up, fed to a fresh detector, leave
    [rep_count] at 0 whatever the clock readings are: the smoothed labels
    are six times Down and four times Up, a single transition, and
    [check_rep_completion] asks for two. *)
Theorem down_batch_then_up_batch_counts_nothing
    (hash_order : list Phase -> nat) (downs ups : list Frame) :
  length downs = 5%nat ->
  length ups = 5%nat ->
  Forall (raw_classified Down) downs ->
  Forall (raw_classified Up) ups ->
  exists rs s',
    run hash_order (downs ++ ups) init = Ok (rs, s')
    /\ rep_count s' = 0%Z
    /\ Forall (fun r => res_rep_completed r = false) rs
    /\ map res_phase rs
       = [Down; Down; Down; Down; Down; Down; Up; Up; Up; Up]
    /\ phase_history s'
       = [Down; Down; Down; Down; Down; Down; Up; Up; Up; Up].
Proof.
  intros Hdowns Hups Hd Hu.
  destruct downs as [|d1 [|d2 [|d3 [|d4 [|d5 [|]]]]]]; try discriminate.
  destruct ups as [|u1 [|u2 [|u3 [|u4 [|u5 [|]]]]]]; try discriminate.
  repeat match goal with
         | H : Forall _ (_ :: _) |- _ => apply Forall_cons_iff in H as [? H]
         end.
  eexists _, _. split.
  - rewrite run_steps. apply f_equal. unfold init. cbn [app].
    idle_step Down Down. idle_step Down Down. idle_step Down Down.
    idle_step Down Down. idle_step Down Down.
    idle_step Up Down. idle_step Up Up. idle_step Up Up.
    idle_step Up Up. idle_step Up Up.
    reflexivity.
  - cbn [rep_count phase_history map res_phase].
    repeat split; repeat constructor.
Qed.

Lemma down_batch_then_up_batch_counts_nothing_witness :
  exists rs s',
    run Samples.nodup_order (Samples.down_batch ++ Samples.up_batch) init
    = Ok (rs, s')
    /\ rep_count s' = 0%Z
    /\ Forall (fun r => res_rep_completed r = false) rs
    /\ map res_phase rs
       = [Down; Down; Down; Down; Down; Down; Up; Up; Up; Up]
    /\ phase_history s'
       = [Down; Down; Down; Down; Down; Down; Up; Up; Up; Up].
Proof.
  apply (down_batch_then_up_batch_counts_nothing Samples.nodup_order
           Samples.down_batch Samples.up_batch).
  - reflexivity.
  - reflexivity.
  - vm_compute. repeat constructor.
  - vm_compute. repeat constructor.
Defined.

(** Five Down frames, the clock advanced by 1.6 s, five Up frames: the
    debounce interval has long elapsed at every check (the last rep time is
    still 0), and yet the count at the end of the second batch is 0, not
    1. *)
Lemma end_to_end_counts_no_rep :
  length Samples.down_batch = 5%nat
  /\ length Samples.up_batch = 5%nat
  /\ Forall (raw_classified Down) Samples.down_batch
  /\ Forall (raw_classified Up) Samples.up_batch
  /\ (1.0 <? 102 - 100.4)%float = true
  /\ Forall (fun f => debounced (frame_time_check f) init = false)
       (Samples.down_batch ++ Samples.up_batch)
  /\ exists rs s',
       run Samples.nodup_order (Samples.down_batch ++ Samples.up_batch) init
       = Ok (rs, s')
       /\ rep_count s' = 0%Z
       /\ rep_count s' <> 1%Z.
Proof.
  split; [reflexivity|]. split; [reflexivity|].
  split; [vm_compute; repeat constructor|].
  split; [vm_compute; repeat constructor|].
  split; [vm_compute; reflexivity|].
  split; [vm_compute; repeat constructor|].
  eexists _, _. split; [apply run_steps_pair|].
  split; [vm_compute; reflexivity | vm_compute; discriminate].
Qed.

(** A wrist difference of +0.2 alone casts one down vote: such a frame is
    raw-classified Transition, not Down. *)
Example wrist_difference_alone_is_transition :
  Classifier.down_votes
    (Classifier.wrist_shoulder_diff Samples.wrist_only_pose)
    (Classifier.elbow_shoulder_diff Samples.wrist_only_pose)
    (Classifier.nose_shoulder_diff Samples.wrist_only_pose) = 1%Z
  /\ Classifier.raw_label Samples.wrist_only_pose = Transition.
Proof. vm_compute. auto. Qed.

(** With the poses passing through a level position, so that the smoothed
    labels read Down, Transition, Up, the rep is counted. *)
Example down_level_up_counts_one_rep :
  rep_count
    (snd (steps Samples.nodup_order
            (map (Samples.at_time Samples.down_pose) [100; 100.1; 100.2]
             ++ map (Samples.at_time Samples.level_pose) [100.3; 100.4]
             ++ map (Samples.at_time Samples.up_pose) [100.5; 100.6])%float
            init)) = 1%Z.
Proof. vm_compute. reflexivity. Qed.

(** * Further properties of the detector *)

(** ** Sessions never raise *)

Lemma reset_step (s : PushupDetector) : reset s = Ok (tt, reset_state s).
Proof. reflexivity. Qed.

(** An invariant [P] of [update] and [reset], with a property [Q] of every
    frame and the record returned for it, holds throughout a session. *)
Lemma session_invariant (hash_order : list Phase -> nat)
    (P : PushupDetector -> Prop) (Q : Frame -> UpdateResult -> Prop) :
  (forall f s, P s ->
     P (snd (step hash_order f s)) /\ Q f (fst (step hash_order f s))) ->
  (forall s, P s -> P (reset_state s)) ->
  forall calls s, P s ->
  exists rs s',
    session hash_order calls s = Ok (rs, s')
    /\ P s'
    /\ Forall2 Q (frames_of calls) rs.
Proof.
  intros Hstep Hreset calls.
  induction calls as [|[f|] rest IH]; intros s Hs.
  - exists [], s. repeat split; [exact Hs | constructor].
  - destruct (Hstep f s Hs) as (Hnext & Hq).
    destruct (IH _ Hnext) as (rs & s' & Hrun & Hs' & Hall).
    exists (fst (step hash_order f s) :: rs), s'.
    split; [|split; [exact Hs' | now constructor]].
    cbn [session]. unfold bind at 1. rewrite update_step.
    destruct (step hash_order f s) as [r s1]. cbn [fst snd] in *.
    unfold bind. now rewrite Hrun.
  - destruct (IH _ (Hreset s Hs)) as (rs & s' & Hrun & Hs' & Hall).
    exists rs, s'. split; [|split; assumption].
    cbn [session]. unfold bind. now rewrite reset_step.
Qed.

(** ** Bounded memory and constant configuration *)

Lemma deque_append_bounded {A : Type} (maxlen : nat) (d : list A) (x : A) :
  (0 < maxlen)%nat ->
  (length d <= maxlen)%nat ->
  (length (deque_append maxlen d x) <= maxlen)%nat.
Proof.
  intros Hpos Hd. unfold deque_append.
  destruct (maxlen <? length (d ++ [x]))%nat eqn:Hfull.
  - destruct d as [|y d]; cbn [app tl length] in *; [lia|].
    rewrite length_app. cbn [length]. lia.
  - now apply Nat.ltb_ge in Hfull.
Qed.

(** The state that [update] leaves behind, attribute by attribute. *)
Lemma step_state (hash_order : list Phase -> nat) (f : Frame)
    (s : PushupDetector) :
  let label := detected_label hash_order (frame_landmarks f) s in
  let history := deque_append phase_history_maxlen (phase_history s) label in
  let s' := snd (step hash_order f s) in
  let r := fst (step hash_order f s) in
  current_phase s' = label
  /\ last_phase s' = current_phase s
  /\ res_phase r = label
  /\ min_rep_interval s' = min_rep_interval s
  /\ position_history s'
     = position_history (detected_state (frame_landmarks f) s)
  /\ res_phase_history r = phase_history s'
  /\ res_rep_count r = rep_count s'
  /\ ((res_rep_completed r = true
       /\ counts_rep f s history = true
       /\ phase_history s' = []
       /\ rep_count s' = (rep_count s + 1)%Z
       /\ last_rep_time s' = frame_time_count f)
      \/ (res_rep_completed r = false
          /\ counts_rep f s history = false
          /\ phase_history s' = history
          /\ rep_count s' = rep_count s
          /\ last_rep_time s' = last_rep_time s)).
Proof.
  unfold step, detected_state.
  destruct (length (frame_landmarks f) =? 33)%nat;
    destruct (counts_rep _ _ _); cbn; repeat split; auto 10.
Qed.

(** X1.  Over any sequence of updates and resets on a fresh detector, no
    call raises, the rep history never holds more than 10 labels and the
    smoothing window never more than 5; the history in every returned
    record has at most 10 entries. *)
Theorem histories_stay_bounded (hash_order : list Phase -> nat)
    (calls : list Call) :
  exists rs s',
    session hash_order calls init = Ok (rs, s')
    /\ (length (phase_history s') <= 10)%nat
    /\ (length (position_history s') <= 5)%nat
    /\ Forall (fun r => (length (res_phase_history r) <= 10)%nat) rs.
Proof.
  destruct (session_invariant hash_order
              (fun s => (length (phase_history s) <= 10)%nat
                        /\ (length (position_history s) <= 5)%nat)
              (fun _ r => (length (res_phase_history r) <= 10)%nat))
    with (calls := calls) (s := init) as (rs & s' & Hrun & [Hh Hw] & Hall).
  - intros f s [Hh Hw].
    destruct (step_state hash_order f s)
      as (_ & _ & _ & _ & Hwin & Hres & _ & Hcase).
    assert (Hh' : (length (phase_history (snd (step hash_order f s))) <= 10)%nat).
    { destruct Hcase as [(_ & _ & -> & _) | (_ & _ & -> & _)];
        [cbn; lia|].
      apply (deque_append_bounded phase_history_maxlen);
        unfold phase_history_maxlen; lia. }
    repeat split; [exact Hh' | | now rewrite Hres].
    rewrite Hwin. unfold detected_state.
    destruct (length (frame_landmarks f) =? 33)%nat; [|exact Hw].
    cbn [position_history set_position_history]. unfold window_after.
    apply (deque_append_bounded position_history_maxlen);
      unfold position_history_maxlen; lia.
  - intros s _. cbn. lia.
  - cbn. lia.
  - exists rs, s'. repeat split; try assumption.
    clear Hrun. induction Hall; constructor; assumption.
Qed.

(** X2.  Over any sequence of updates and resets on a fresh detector,
    [min_rep_interval] stays the constructor's 1.0, and [last_rep_time] is
    either 0 or the [count_rep] clock reading of one of the frames. *)
Theorem configuration_is_constant (hash_order : list Phase -> nat)
    (calls : list Call) :
  exists rs s',
    session hash_order calls init = Ok (rs, s')
    /\ min_rep_interval s' = 1.0%float
    /\ (last_rep_time s' = 0%float
        \/ In (last_rep_time s') (map frame_time_count (frames_of calls))).
Proof.
  assert (Hgen : forall calls s,
             min_rep_interval s = 1.0%float ->
             exists rs s',
               session hash_order calls s = Ok (rs, s')
               /\ min_rep_interval s' = 1.0%float
               /\ (last_rep_time s' = 0%float
                   \/ last_rep_time s' = last_rep_time s
                   \/ In (last_rep_time s')
                        (map frame_time_count (frames_of calls)))).
  { clear calls. intros calls.
    induction calls as [|[f|] rest IH]; intros s Hmin.
    - exists [], s. auto.
    - destruct (step_state hash_order f s)
        as (_ & _ & _ & Hmin' & _ & _ & _ & Hcase).
      rewrite Hmin in Hmin'.
      destruct (IH _ Hmin') as (rs & s' & Hrun & Hm & Hlast).
      exists (fst (step hash_order f s) :: rs), s'. split; [|split; [exact Hm|]].
      + cbn [session]. unfold bind at 1. rewrite update_step.
        destruct (step hash_order f s) as [r s1]. cbn [fst snd] in *.
        unfold bind. now rewrite Hrun.
      + cbn [frames_of map]. destruct Hlast as [H0 | [Hsame | Hin]].
        * now left.
        * rewrite Hsame.
          destruct Hcase as [(_ & _ & _ & _ & ->) | (_ & _ & _ & _ & ->)].
          -- right; right. now left.
          -- right. now left.
        * right; right. now right.
    - destruct (IH (reset_state s)) as (rs & s' & Hrun & Hm & Hlast);
        [exact Hmin|].
      exists rs, s'. split; [|split; [exact Hm|]].
      + cbn [session]. unfold bind. now rewrite reset_step.
      + cbn [frames_of]. destruct Hlast as [H0 | [Hsame | Hin]]; auto. }
  destruct (Hgen calls init eq_refl) as (rs & s' & Hrun & Hm & Hlast).
  exists rs, s'. repeat split; try assumption.
  destruct Hlast as [H0 | [Hsame | Hin]]; auto.
Qed.

(** X3.  The flag and the count agree: an [update] returns
    [rep_completed = true] exactly when it raised the count by one (and
    then it recorded the time and cleared the history), and
    [rep_completed = false] exactly when it left the count as it was. *)
Theorem rep_flag_matches_count (hash_order : list Phase -> nat) (f : Frame)
    (s : PushupDetector) :
  exists r s',
    update hash_order f s = Ok (r, s')
    /\ (res_rep_completed r = true <-> rep_count s' = (rep_count s + 1)%Z)
    /\ (res_rep_completed r = false <-> rep_count s' = rep_count s)
    /\ (res_rep_completed r = true ->
        last_rep_time s' = frame_time_count f /\ phase_history s' = [])
    /\ (res_rep_completed r = false ->
        last_rep_time s' = last_rep_time s).
Proof.
  rewrite update_step. eexists _, _.
  split; [f_equal; apply surjective_pairing|].
  destruct (step_state hash_order f s)
    as (_ & _ & _ & _ & _ & _ & _ & Hcase).
  destruct Hcase as [(-> & _ & Hh & -> & Ht) | (-> & _ & Hh & -> & Ht)];
    repeat split; intros; try discriminate; try lia; auto.
Qed.

(** ** What a counted rep requires *)

Lemma slice_last_snoc {A : Type} (n : nat) (l : list A) (x : A) :
  slice_last (S n) (l ++ [x]) = slice_last n l ++ [x].
Proof.
  unfold slice_last. rewrite length_app, skipn_app. cbn [length].
  replace (length l + 1 - S n)%nat with (length l - n)%nat by lia.
  replace (length l - n - length l)%nat with 0%nat by lia.
  reflexivity.
Qed.

Lemma slice_last_tl {A : Type} (n : nat) (l : list A) :
  (n < length l)%nat -> slice_last n (tl l) = slice_last n l.
Proof.
  intros Hlen. destruct l as [|a l]; [reflexivity|].
  unfold slice_last. cbn [tl length] in *.
  replace (S (length l) - n)%nat with (S (length l - n)) by lia.
  reflexivity.
Qed.

Lemma slice_last_incl {A : Type} (n : nat) (l : list A) (x : A) :
  In x (slice_last n l) -> In x l.
Proof.
  unfold slice_last. intros Hin.
  rewrite <- (firstn_skipn (length l - n) l). apply in_or_app. now right.
Qed.

Lemma contains_In (x : Phase) (l : list Phase) :
  contains x l = true <-> In x l.
Proof.
  unfold contains. rewrite existsb_exists. split.
  - intros (y & Hy & Heq). apply Phase_eqb_eq in Heq. now subst.
  - intros Hin. exists x. split; [exact Hin | apply Phase_eqb_refl].
Qed.

(** The pattern test on a history that has just received [label]. *)
Lemma completion_pattern_after_append (h : list Phase) (label : Phase) :
  completion_pattern (deque_append phase_history_maxlen h label) = true ->
  label = Up /\ In Down (slice_last 5 h).
Proof.
  unfold completion_pattern.
  destruct (deque_append_ends phase_history_maxlen h label)
    as (kept & -> & Hkept); [unfold phase_history_maxlen; lia|].
  rewrite slice_last_snoc. unfold slice_but_last.
  rewrite removelast_last, last_last.
  intros Hpat. apply andb_prop in Hpat as [Hpat _].
  apply andb_prop in Hpat as [Hdown Hup].
  apply Phase_eqb_eq in Hup. apply contains_In in Hdown.
  split; [exact Hup|].
  destruct Hkept as [-> | [-> Hfull]]; [exact Hdown|].
  rewrite slice_last_tl in Hdown; [exact Hdown|].
  unfold phase_history_maxlen in Hfull. lia.
Qed.

Lemma deque_append_length_le {A : Type} (maxlen : nat) (d : list A) (x : A) :
  (length (deque_append maxlen d x) <= length d + 1)%nat.
Proof.
  unfold deque_append.
  destruct (maxlen <? length (d ++ [x]))%nat.
  - destruct d as [|y d]; cbn [app tl length]; [lia|].
    rewrite length_app. cbn [length]. lia.
  - rewrite length_app. cbn [length]. lia.
Qed.

(** X4.  An [update] that returns [rep_completed = true] returned the
    phase Up, found at least three earlier labels in the history with a
    Down among the last five of them, and ran at least [min_rep_interval]
    after the last counted rep. *)
Theorem counted_rep_requirements (hash_order : list Phase -> nat) (f : Frame)
    (s s' : PushupDetector) (r : UpdateResult) :
  update hash_order f s = Ok (r, s') ->
  res_rep_completed r = true ->
  res_phase r = Up
  /\ current_phase s' = Up
  /\ (3 <= length (phase_history s))%nat
  /\ In Down (slice_last 5 (phase_history s))
  /\ (frame_time_check f - last_rep_time s <? min_rep_interval s)%float
     = false.
Proof.
  rewrite update_step. intros Hstep Hdone. inversion Hstep as [Hpair].
  assert (Hr : r = fst (step hash_order f s)) by now rewrite Hpair.
  assert (Hs' : s' = snd (step hash_order f s)) by now rewrite Hpair.
  destruct (step_state hash_order f s)
    as (Hcur & _ & Hphase & _ & _ & _ & _ & Hcase).
  rewrite <- Hr, <- Hs' in *.
  destruct Hcase as [(_ & Hcounts & _) | (Hfalse & _)]; [|congruence].
  unfold counts_rep in Hcounts.
  apply andb_prop in Hcounts as [Hcounts Hpattern].
  apply andb_prop in Hcounts as [Hlong Hdeb].
  apply completion_pattern_after_append in Hpattern as [Hup Hdown].
  apply negb_true_iff in Hlong, Hdeb. apply Nat.ltb_ge in Hlong.
  pose proof (deque_append_length_le phase_history_maxlen (phase_history s)
                (detected_label hash_order (frame_landmarks f) s)).
  repeat split; try congruence; try lia. exact Hdeb.
Qed.

Lemma counted_rep_requirements_witness :
  res_phase (mkResult Up 1 true []) = Up
  /\ current_phase (mkDetector 1 Up Neutral [] 100 1 [Up; Up; Up]) = Up
  /\ (3 <= length (phase_history Samples.about_to_complete))%nat
  /\ In Down (slice_last 5 (phase_history Samples.about_to_complete))
  /\ (frame_time_check (Samples.at_time Samples.up_pose 100)
      - last_rep_time Samples.about_to_complete
      <? min_rep_interval Samples.about_to_complete)%float = false.
Proof.
  apply (counted_rep_requirements Samples.nodup_order).
  - vm_compute. reflexivity.
  - reflexivity.
Defined.

(** ** How fast reps can follow each other *)

Lemma steps_cons (hash_order : list Phase -> nat) (f : Frame)
    (rest : list Frame) (s : PushupDetector) :
  steps hash_order (f :: rest) s
  = (fst (step hash_order f s)
       :: fst (steps hash_order rest (snd (step hash_order f s))),
     snd (steps hash_order rest (snd (step hash_order f s)))).
Proof. reflexivity. Qed.

(** X5.  While the rep history is shorter than four labels nothing is
    counted, whatever the frames and the clock: on a fresh or reset
    detector, and right after a counted rep (which empties the history),
    the next three updates all return [rep_completed = false]. *)
Theorem short_history_counts_nothing (hash_order : list Phase -> nat)
    (frames : list Frame) (s : PushupDetector) :
  (length (phase_history s) + length frames < 4)%nat ->
  exists rs s',
    run hash_order frames s = Ok (rs, s')
    /\ Forall (fun r => res_rep_completed r = false) rs
    /\ rep_count s' = rep_count s
    /\ last_rep_time s' = last_rep_time s.
Proof.
  rewrite run_steps. revert s.
  induction frames as [|f rest IH]; intros s Hshort.
  - exists [], s. repeat split. constructor.
  - destruct (step_state hash_order f s)
      as (_ & _ & _ & _ & _ & _ & _ & Hcase).
    pose proof (deque_append_length_le phase_history_maxlen (phase_history s)
                  (detected_label hash_order (frame_landmarks f) s)) as Hlen.
    cbn [length] in Hshort.
    destruct Hcase as [(_ & Hcounts & _) | (Hdone & _ & Hh & Hc & Ht)].
    + unfold counts_rep in Hcounts.
      apply andb_prop in Hcounts as [Hcounts _].
      apply andb_prop in Hcounts as [Hlong _].
      apply negb_true_iff, Nat.ltb_ge in Hlong. lia.
    + destruct (IH (snd (step hash_order f s))) as (rs & s' & Hrun & Hall & Hc' & Ht').
      { rewrite Hh. lia. }
      inversion Hrun as [Hpair].
      exists (fst (step hash_order f s) :: rs), s'.
      rewrite steps_cons, Hpair.
      repeat split; [now constructor | congruence | congruence].
Qed.

Lemma short_history_counts_nothing_witness :
  exists rs s',
    run Samples.nodup_order
      [Samples.at_time Samples.down_pose 100;
       Samples.at_time Samples.level_pose 101;
       Samples.at_time Samples.up_pose 102] init = Ok (rs, s')
    /\ Forall (fun r => res_rep_completed r = false) rs
    /\ rep_count s' = rep_count init
    /\ last_rep_time s' = last_rep_time init.
Proof.
  apply (short_history_counts_nothing Samples.nodup_order
           [Samples.at_time Samples.down_pose 100;
            Samples.at_time Samples.level_pose 101;
            Samples.at_time Samples.up_pose 102] init).
  cbn. lia.
Defined.

Lemma step_potential (hash_order : list Phase -> nat) (f : Frame)
    (s : PushupDetector) :
  (4 * rep_count (snd (step hash_order f s))
   + Z.of_nat (Nat.min (length (phase_history (snd (step hash_order f s)))) 3)
   <= 4 * rep_count s
      + Z.of_nat (Nat.min (length (phase_history s)) 3) + 1)%Z.
Proof.
  destruct (step_state hash_order f s)
    as (_ & _ & _ & _ & _ & _ & _ & Hcase).
  pose proof (deque_append_length_le phase_history_maxlen (phase_history s)
                (detected_label hash_order (frame_landmarks f) s)) as Hlen.
  destruct Hcase as [(_ & Hcounts & -> & -> & _) | (_ & _ & -> & -> & _)].
  - unfold counts_rep in Hcounts.
    apply andb_prop in Hcounts as [Hcounts _].
    apply andb_prop in Hcounts as [Hlong _].
    apply negb_true_iff, Nat.ltb_ge in Hlong. cbn [length]. lia.
  - lia.
Qed.

(** X6.  At most one rep every four frames: over any run of updates the
    count grows by at most a quarter of the number of frames plus the (at
    most three) labels already in the history; from a fresh detector four
    times the count never exceeds the number of frames. *)
Theorem one_rep_per_four_frames (hash_order : list Phase -> nat) :
  (forall frames s, exists rs s',
      run hash_order frames s = Ok (rs, s')
      /\ (4 * (rep_count s' - rep_count s)
          <= Z.of_nat (length frames)
             + Z.of_nat (Nat.min (length (phase_history s)) 3))%Z)
  /\ (forall frames, exists rs s',
        run hash_order frames init = Ok (rs, s')
        /\ (4 * rep_count s' <= Z.of_nat (length frames))%Z).
Proof.
  assert (Hgen : forall frames s,
             (4 * rep_count (snd (steps hash_order frames s))
              + Z.of_nat (Nat.min
                  (length (phase_history (snd (steps hash_order frames s))))
                  3)
              <= 4 * rep_count s
                 + Z.of_nat (Nat.min (length (phase_history s)) 3)
                 + Z.of_nat (length frames))%Z).
  { induction frames as [|f rest IH]; intros s.
    - cbn. lia.
    - rewrite steps_cons. cbn [snd length].
      specialize (IH (snd (step hash_order f s))).
      pose proof (step_potential hash_order f s). lia. }
  split.
  - intros frames s. rewrite run_steps_pair. eexists _, _.
    split; [reflexivity|]. specialize (Hgen frames s). lia.
  - intros frames. rewrite run_steps_pair. eexists _, _.
    split; [reflexivity|]. specialize (Hgen frames init).
    change (rep_count init) with 0%Z in Hgen.
    change (phase_history init) with (@nil Phase) in Hgen.
    cbn [length Nat.min] in Hgen. lia.
Qed.

(** ** Malformed frames and the Neutral label *)

Lemma raw_label_not_neutral (lm : list Landmark) :
  Classifier.raw_label lm <> Neutral.
Proof.
  unfold Classifier.raw_label, Classifier.decide.
  destruct (2 <=? _)%Z; [discriminate|].
  destruct (2 <=? _)%Z; discriminate.
Qed.

Lemma In_deque_append {A : Type} (maxlen : nat) (d : list A) (x y : A) :
  In y (deque_append maxlen d x) -> y = x \/ In y d.
Proof.
  unfold deque_append.
  destruct (maxlen <? length (d ++ [x]))%nat; intros Hin.
  - destruct d as [|a d]; cbn [app tl] in Hin; [destruct Hin|].
    apply in_app_or in Hin as [Hin | [<- | []]]; [right; now right | now left].
  - apply in_app_or in Hin as [Hin | [<- | []]]; [now right | now left].
Qed.

Lemma smoothed_from_window (hash_order : list Phase -> nat)
    (window : list Phase) (raw : Phase) :
  smoothed hash_order window raw = raw
  \/ In (smoothed hash_order window raw) window.
Proof.
  unfold smoothed. destruct (3 <=? length window)%nat eqn:Hfull; [|now left].
  apply Nat.leb_le in Hfull.
  destruct (majority_spec hash_order (slice_last 3 window))
    as (p & -> & Hin & _).
  - intros Hnil. apply (f_equal (@length Phase)) in Hnil.
    rewrite slice_last_length in Hnil. cbn [length] in Hnil. lia.
  - right. eapply slice_last_incl, Hin.
Qed.

(** On a well-shaped frame the label returned is never Neutral, provided
    the smoothing window holds no Neutral; the window then still holds
    none. *)
Lemma detected_label_not_neutral (hash_order : list Phase -> nat)
    (lm : list Landmark) (s : PushupDetector) :
  ~ In Neutral (position_history s) ->
  ~ In Neutral (position_history (detected_state lm s))
  /\ (detected_label hash_order lm s = Neutral <-> length lm <> 33%nat).
Proof.
  intros Hclean. unfold detected_state, detected_label.
  destruct (length lm =? 33)%nat eqn:Hlen.
  - apply Nat.eqb_eq in Hlen.
    assert (Hwin : ~ In Neutral (window_after lm s)).
    { unfold window_after. intros Hin.
      apply In_deque_append in Hin as [Heq | Hin]; [|auto].
      now apply (raw_label_not_neutral lm). }
    split; [exact Hwin|]. split; [|intros Hne; congruence].
    intros Hneutral. exfalso.
    destruct (smoothed_from_window hash_order (window_after lm s)
                (Classifier.raw_label lm)) as [Heq | Hin].
    + apply (raw_label_not_neutral lm). congruence.
    + apply Hwin. congruence.
  - apply Nat.eqb_neq in Hlen. split; [exact Hclean|]. split; auto.
Qed.

(** X7.  Over any sequence of updates and resets on a fresh detector, the
    phase in a returned record is Neutral exactly when the frame did not
    have 33 landmarks; the smoothing window never holds a Neutral. *)
Theorem neutral_exactly_when_malformed (hash_order : list Phase -> nat)
    (calls : list Call) :
  exists rs s',
    session hash_order calls init = Ok (rs, s')
    /\ ~ In Neutral (position_history s')
    /\ Forall2 (fun f r => res_phase r = Neutral
                           <-> length (frame_landmarks f) <> 33%nat)
         (frames_of calls) rs.
Proof.
  apply (session_invariant hash_order
           (fun s => ~ In Neutral (position_history s))
           (fun f r => res_phase r = Neutral
                       <-> length (frame_landmarks f) <> 33%nat)).
  - intros f s Hclean.
    destruct (step_state hash_order f s)
      as (_ & _ & Hphase & _ & Hwin & _).
    destruct (detected_label_not_neutral hash_order (frame_landmarks f) s
                Hclean) as (Hclean' & Hiff).
    rewrite Hwin, Hphase. split; assumption.
  - intros s _. cbn. auto.
  - cbn. auto.
Qed.

(** X8.  A frame that does not have 33 landmarks never completes a rep
    and leaves the count, the time of the last rep and the smoothing
    window alone; but it is not skipped: Neutral is appended to the rep
    history like any other label. *)
Theorem malformed_frame_enters_history (hash_order : list Phase -> nat)
    (f : Frame) (s : PushupDetector) :
  length (frame_landmarks f) <> 33%nat ->
  exists r s',
    update hash_order f s = Ok (r, s')
    /\ res_rep_completed r = false
    /\ rep_count s' = rep_count s
    /\ last_rep_time s' = last_rep_time s
    /\ position_history s' = position_history s
    /\ phase_history s'
       = deque_append phase_history_maxlen (phase_history s) Neutral.
Proof.
  intros Hlen. apply Nat.eqb_neq in Hlen.
  rewrite update_step. eexists _, _.
  split; [f_equal; apply surjective_pairing|].
  destruct (step_state hash_order f s)
    as (_ & _ & _ & _ & Hwin & _ & _ & Hcase).
  revert Hwin Hcase. unfold detected_state, detected_label.
  rewrite Hlen. intros Hwin Hcase.
  destruct Hcase as [(_ & Hcounts & _) | (Hdone & _ & Hh & Hc & Ht)].
  - unfold counts_rep in Hcounts.
    apply andb_prop in Hcounts as [_ Hpattern].
    apply completion_pattern_after_append in Hpattern as [Hup _].
    discriminate.
  - auto 6.
Qed.

Lemma malformed_frame_enters_history_witness :
  exists r s',
    update Samples.nodup_order (mkFrame [] 100 100)
      Samples.about_to_complete = Ok (r, s')
    /\ res_rep_completed r = false
    /\ rep_count s' = rep_count Samples.about_to_complete
    /\ last_rep_time s' = last_rep_time Samples.about_to_complete
    /\ position_history s' = position_history Samples.about_to_complete
    /\ phase_history s'
       = deque_append phase_history_maxlen
           (phase_history Samples.about_to_complete) Neutral.
Proof.
  apply (malformed_frame_enters_history Samples.nodup_order
           (mkFrame [] 100 100) Samples.about_to_complete).
  cbn. discriminate.
Defined.

(** A dropped frame between Down and Up supplies the second transition:
    Down, Down, Down, then a malformed frame, then Up frames count a rep
    that the same frames without the malformed one do not. *)
Example malformed_frame_makes_a_transition :
  let downs := map (Samples.at_time Samples.down_pose) [100; 100.1; 100.2]%float in
  let ups := map (Samples.at_time Samples.up_pose) [100.4; 100.5]%float in
  rep_count (snd (steps Samples.nodup_order
                    (downs ++ [mkFrame [] 100.3 100.3] ++ ups) init)) = 1%Z
  /\ rep_count (snd (steps Samples.nodup_order (downs ++ ups) init)) = 0%Z.
Proof. vm_compute. auto. Qed.

(** ** Smoothing lag *)

(** X9.  When the smoothing window already holds at least two labels [a],
    [b] at its end, the label returned for a well-shaped frame with raw
    label [c] is decided by any two of [a], [b], [c] that agree, whatever
    the iteration order of the tally: a single deviating frame does not
    change the label ([a = b]), and a new label shows as soon as two
    consecutive frames carry it ([b = c]). *)
Theorem two_of_last_three_decide (hash_order : list Phase -> nat)
    (lm : list Landmark) (s : PushupDetector) (older : list Phase)
    (a b : Phase) :
  length lm = 33%nat ->
  position_history s = older ++ [a; b] ->
  exists p s',
    detect_pushup_phase hash_order lm s = Ok (p, s')
    /\ (a = b -> p = a)
    /\ (b = Classifier.raw_label lm -> p = b)
    /\ (a = Classifier.raw_label lm -> p = a).
Proof.
  intros Hlen Hwin. rewrite detect_pushup_phase_step. eexists _, _.
  split; [reflexivity|].
  unfold detected_label. rewrite (proj2 (Nat.eqb_eq _ _) Hlen).
  unfold window_after. rewrite Hwin.
  set (c := Classifier.raw_label lm).
  destruct (deque_append_ends position_history_maxlen (older ++ [a; b]) c)
    as (kept & -> & Hkept); [unfold position_history_maxlen; lia|].
  destruct Hkept as [-> | [-> Hfull]].
  - replace ((older ++ [a; b]) ++ [c]) with (older ++ [a; b; c])
      by now rewrite <- app_assoc.
    assert (H3 : slice_last 3 (older ++ [a; b; c]) = [a; b; c]).
    { destruct (slice_last_app 3 older [a; b; c]) as (k & -> & Hk);
        [cbn; lia|].
      destruct k; [reflexivity | cbn in Hk; lia]. }
    assert (Hfull : (3 <=? length (older ++ [a; b; c]))%nat = true)
      by (apply Nat.leb_le; rewrite length_app; cbn; lia).
    repeat split; intros Heq; apply smoothed_strict; try exact Hfull;
      rewrite H3; subst; unfold count; cbn [count_occ length];
      repeat destruct (Phase_eq_dec _ _); try congruence;
      apply Z.ltb_lt; lia.
  - destruct older as [|x older];
      [cbn in Hfull; unfold position_history_maxlen in Hfull; lia|].
    cbn [app tl].
    replace ((older ++ [a; b]) ++ [c]) with (older ++ [a; b; c])
      by now rewrite <- app_assoc.
    assert (H3 : slice_last 3 (older ++ [a; b; c]) = [a; b; c]).
    { destruct (slice_last_app 3 older [a; b; c]) as (k & -> & Hk);
        [cbn; lia|].
      destruct k; [reflexivity | cbn in Hk; lia]. }
    assert (Hfull3 : (3 <=? length (older ++ [a; b; c]))%nat = true)
      by (apply Nat.leb_le; rewrite length_app; cbn; lia).
    repeat split; intros Heq; apply smoothed_strict; try exact Hfull3;
      rewrite H3; subst; unfold count; cbn [count_occ length];
      repeat destruct (Phase_eq_dec _ _); try congruence;
      apply Z.ltb_lt; lia.
Qed.

Lemma two_of_last_three_decide_witness :
  exists p s',
    detect_pushup_phase Samples.reverse_order Samples.up_pose
      (set_position_history [Down; Down] init) = Ok (p, s')
    /\ (Down = Down -> p = Down)
    /\ (Down = Classifier.raw_label Samples.up_pose -> p = Down)
    /\ (Down = Classifier.raw_label Samples.up_pose -> p = Down).
Proof.
  apply (two_of_last_three_decide Samples.reverse_order Samples.up_pose
           (set_position_history [Down; Down] init) [] Down Down).
  - reflexivity.
  - reflexivity.
Defined.

(** ** The decision table of the classifier *)

(** X10.  For a frame of 33 landmarks the raw label pushed into the
    smoothing window is Up as soon as the wrists are more than 0.15 above
    the shoulders, or when both the elbow and the nose condition say up;
    otherwise it is Down when at least two of the three down conditions
    hold; otherwise Transition.  So one wrist reading suffices for Up,
    Down always needs two indicators, and Up wins when both would
    qualify. *)
Theorem raw_label_decision_table (hash_order : list Phase -> nat)
    (lm : list Landmark) (s : PushupDetector) :
  length lm = 33%nat ->
  exists p s',
    detect_pushup_phase hash_order lm s = Ok (p, s')
    /\ position_history s'
       = deque_append position_history_maxlen (position_history s)
           (if wrist_up lm || elbow_up lm && nose_up lm then Up
            else if two_of (wrist_down lm) (elbow_down lm) (nose_down lm)
                 then Down
                 else Transition).
Proof.
  intros Hlen. rewrite detect_pushup_phase_step. eexists _, _.
  split; [reflexivity|].
  unfold detected_state. rewrite (proj2 (Nat.eqb_eq _ _) Hlen).
  cbn [position_history set_position_history]. unfold window_after.
  f_equal.
  unfold Classifier.raw_label, Classifier.decide, Classifier.up_votes,
    Classifier.down_votes, Classifier.vote, two_of,
    wrist_up, elbow_up, nose_up, wrist_down, elbow_down, nose_down.
  pose proof (wrist_thresholds_exclusive (Classifier.wrist_shoulder_diff lm))
    as Hw.
  pose proof (elbow_thresholds_exclusive (Classifier.elbow_shoulder_diff lm))
    as He.
  pose proof (nose_thresholds_exclusive (Classifier.nose_shoulder_diff lm))
    as Hn.
  destruct (Classifier.wrist_shoulder_diff lm <? -0.15)%float;
    [rewrite (Hw eq_refl)
    | destruct (0.1 <? Classifier.wrist_shoulder_diff lm)%float];
    (destruct (Classifier.elbow_shoulder_diff lm <? -0.05)%float;
       [rewrite (He eq_refl)
       | destruct (0.05 <? Classifier.elbow_shoulder_diff lm)%float]);
    (destruct (Classifier.nose_shoulder_diff lm <? -0.1)%float;
       [rewrite (Hn eq_refl)
       | destruct (0.05 <? Classifier.nose_shoulder_diff lm)%float]);
    reflexivity.
Qed.

Lemma raw_label_decision_table_witness :
  exists p s',
    detect_pushup_phase Samples.nodup_order Samples.wrist_only_pose init
    = Ok (p, s')
    /\ position_history s'
       = deque_append position_history_maxlen (position_history init)
           (if wrist_up Samples.wrist_only_pose
               || elbow_up Samples.wrist_only_pose
                  && nose_up Samples.wrist_only_pose
            then Up
            else if two_of (wrist_down Samples.wrist_only_pose)
                      (elbow_down Samples.wrist_only_pose)
                      (nose_down Samples.wrist_only_pose)
                 then Down
                 else Transition).
Proof.
  apply (raw_label_decision_table Samples.nodup_order
           Samples.wrist_only_pose init).
  reflexivity.
Defined.

(** ** Missing coordinates *)

Section NaN.

Local Open Scope float_scope.

Lemma is_nan_spec (x : float) :
  PrimFloat.is_nan x = true <-> Prim2SF x = S754_nan.
Proof.
  unfold PrimFloat.is_nan. rewrite FloatAxioms.eqb_spec.
  unfold SFeqb, SFcompare.
  destruct (Prim2SF x) as [sg | sg | | sg m e]; cbn.
  - split; discriminate.
  - destruct sg; split; discriminate.
  - split; reflexivity.
  - rewrite Z.compare_refl, Pos.compare_cont_refl.
    destruct sg; cbn; split; discriminate.
Qed.

Lemma add_nan_l (x y : float) :
  Prim2SF x = S754_nan -> Prim2SF (x + y) = S754_nan.
Proof. intros H. rewrite add_spec, H. reflexivity. Qed.

Lemma add_nan_r (x y : float) :
  Prim2SF y = S754_nan -> Prim2SF (x + y) = S754_nan.
Proof. intros H. rewrite add_spec, H. destruct (Prim2SF x); reflexivity. Qed.

Lemma sub_nan_r (x y : float) :
  Prim2SF y = S754_nan -> Prim2SF (x - y) = S754_nan.
Proof. intros H. rewrite sub_spec, H. destruct (Prim2SF x); reflexivity. Qed.

Lemma div_nan_l (x y : float) :
  Prim2SF x = S754_nan -> Prim2SF (x / y) = S754_nan.
Proof. intros H. rewrite div_spec, H. reflexivity. Qed.

Lemma ltb_nan_l (x y : float) : Prim2SF x = S754_nan -> (x <? y) = false.
Proof. intros H. rewrite ltb_spec, H. reflexivity. Qed.

Lemma ltb_nan_r (x y : float) : Prim2SF y = S754_nan -> (x <? y) = false.
Proof.
  intros H. rewrite ltb_spec, H. unfold SFltb, SFcompare.
  destruct (Prim2SF x) as [sg | sg | | sg m e]; try destruct sg; reflexivity.
Qed.

End NaN.

(** X11.  If the height of either shoulder is NaN in a frame of 33
    landmarks, none of the six vote conditions holds and the raw label
    pushed into the smoothing window is Transition; no exception is
    raised. *)
Theorem nan_shoulder_is_transition (hash_order : list Phase -> nat)
    (lm : list Landmark) (s : PushupDetector) :
  length lm = 33%nat ->
  PrimFloat.is_nan (Classifier.y_of lm 11) = true
  \/ PrimFloat.is_nan (Classifier.y_of lm 12) = true ->
  exists p s',
    detect_pushup_phase hash_order lm s = Ok (p, s')
    /\ position_history s'
       = deque_append position_history_maxlen (position_history s) Transition
    /\ wrist_up lm = false /\ elbow_up lm = false /\ nose_up lm = false
    /\ wrist_down lm = false /\ elbow_down lm = false
    /\ nose_down lm = false.
Proof.
  intros Hlen Hnan.
  assert (Havg : Prim2SF (Classifier.avg (Classifier.y_of lm 11)
                            (Classifier.y_of lm 12)) = S754_nan).
  { unfold Classifier.avg. apply div_nan_l.
    destruct Hnan as [H | H]; apply is_nan_spec in H;
      [now apply add_nan_l | now apply add_nan_r]. }
  assert (Hw : Prim2SF (Classifier.wrist_shoulder_diff lm) = S754_nan)
    by now apply sub_nan_r.
  assert (He : Prim2SF (Classifier.elbow_shoulder_diff lm) = S754_nan)
    by now apply sub_nan_r.
  assert (Hn : Prim2SF (Classifier.nose_shoulder_diff lm) = S754_nan)
    by now apply sub_nan_r.
  rewrite detect_pushup_phase_step. eexists _, _.
  split; [reflexivity|].
  unfold detected_state. rewrite (proj2 (Nat.eqb_eq _ _) Hlen).
  cbn [position_history set_position_history]. unfold window_after.
  unfold wrist_up, elbow_up, nose_up, wrist_down, elbow_down, nose_down.
  rewrite !(ltb_nan_l _ _ Hw), !(ltb_nan_l _ _ He), !(ltb_nan_l _ _ Hn),
    !(ltb_nan_r _ _ Hw), !(ltb_nan_r _ _ He), !(ltb_nan_r _ _ Hn).
  repeat split. f_equal.
  unfold Classifier.raw_label, Classifier.up_votes, Classifier.down_votes.
  rewrite !(ltb_nan_l _ _ Hw), !(ltb_nan_l _ _ He), !(ltb_nan_l _ _ Hn),
    !(ltb_nan_r _ _ Hw), !(ltb_nan_r _ _ He), !(ltb_nan_r _ _ Hn).
  reflexivity.
Qed.

Lemma nan_shoulder_is_transition_witness :
  exists p s',
    detect_pushup_phase Samples.nodup_order Samples.no_shoulder_pose init
    = Ok (p, s')
    /\ position_history s'
       = deque_append position_history_maxlen (position_history init)
           Transition
    /\ wrist_up Samples.no_shoulder_pose = false
    /\ elbow_up Samples.no_shoulder_pose = false
    /\ nose_up Samples.no_shoulder_pose = false
    /\ wrist_down Samples.no_shoulder_pose = false
    /\ elbow_down Samples.no_shoulder_pose = false
    /\ nose_down Samples.no_shoulder_pose = false.
Proof.
  apply (nan_shoulder_is_transition Samples.nodup_order
           Samples.no_shoulder_pose init).
  - reflexivity.
  - left. vm_compute. reflexivity.
Defined.

(** * Properties of the pose source *)

Module PoseFacts.

Import Pose.

Lemma getitem_in_bounds {A : Type} (l : list A) (i : nat) (x : A) :
  getitem l i = Ok x -> (i < length l)%nat /\ nth_error l i = Some x.
Proof.
  unfold getitem. destruct (nth_error l i) as [y|] eqn:Hnth; [|discriminate].
  intros Heq. inversion Heq; subst. split; [|reflexivity].
  apply nth_error_Some. congruence.
Qed.

Lemma getitem_out_of_bounds {A : Type} (l : list A) (i : nat) :
  (length l <= i)%nat -> getitem l i = Raise IndexError.
Proof.
  intros Hi. unfold getitem.
  now rewrite (proj2 (nth_error_None l i) Hi).
Qed.

Lemma sum_visible_in_bounds (landmark : list MPLandmark)
    (indices : list nat) (total : Z) :
  Forall (fun i => (i < length landmark)%nat) indices ->
  sum_visible landmark indices total
  = Ok (total + Z.of_nat (visible_count landmark indices))%Z.
Proof.
  revert total. induction indices as [|i rest IH]; intros total Hall.
  - cbn. f_equal. lia.
  - apply Forall_cons_iff in Hall as [Hi Hrest].
    cbn [sum_visible]. unfold getitem, visible_count. cbn [filter].
    destruct (nth_error landmark i) as [l|] eqn:Hnth.
    + rewrite (IH _ Hrest). unfold visible_count.
      destruct (0.5 <? lm_visibility l)%float; cbn [length]; f_equal; lia.
    + apply nth_error_None in Hnth. lia.
Qed.

Lemma sum_visible_out_of_bounds (landmark : list MPLandmark)
    (indices : list nat) (total : Z) (i : nat) :
  In i indices -> (length landmark <= i)%nat ->
  sum_visible landmark indices total = Raise IndexError.
Proof.
  revert total. induction indices as [|j rest IH]; intros total Hin Hi.
  - destruct Hin.
  - cbn [sum_visible]. destruct (getitem landmark j) as [l | e] eqn:Hget.
    + destruct Hin as [-> | Hin]; [|now apply IH].
      apply getitem_in_bounds in Hget. lia.
    + destruct (Nat.lt_ge_cases j (length landmark)) as [Hlt | Hge].
      * rewrite (getitem_nth landmark j (mkLandmark 0 0 0) Hlt) in Hget.
        discriminate.
      * rewrite (getitem_out_of_bounds _ _ Hge) in Hget. congruence.
Qed.

Lemma visibilities_in_bounds (landmark : list MPLandmark)
    (indices : list nat) :
  Forall (fun i => (i < length landmark)%nat) indices ->
  exists vs, visibilities landmark indices = Ok vs
             /\ length vs = length indices.
Proof.
  induction indices as [|i rest IH]; intros Hall.
  - exists []. split; reflexivity.
  - apply Forall_cons_iff in Hall as [Hi Hrest].
    destruct (IH Hrest) as (vs & Hvs & Hlen).
    cbn [visibilities].
    rewrite (getitem_nth landmark i (mkLandmark 0 0 0) Hi), Hvs.
    eexists. split; [reflexivity|]. cbn [length]. now rewrite Hlen.
Qed.

Lemma visibilities_out_of_bounds (landmark : list MPLandmark)
    (indices : list nat) (i : nat) :
  In i indices -> (length landmark <= i)%nat ->
  visibilities landmark indices = Raise IndexError.
Proof.
  induction indices as [|j rest IH]; intros Hin Hi; [destruct Hin|].
  cbn [visibilities]. destruct (getitem landmark j) as [l | e] eqn:Hget.
  - destruct Hin as [-> | Hin].
    + apply getitem_in_bounds in Hget. lia.
    + now rewrite (IH Hin Hi).
  - destruct (Nat.lt_ge_cases j (length landmark)) as [Hlt | Hge].
    + rewrite (getitem_nth landmark j (mkLandmark 0 0 0) Hlt) in Hget.
      discriminate.
    + rewrite (getitem_out_of_bounds _ _ Hge) in Hget. congruence.
Qed.

(** The key indices are all below 29, and 28 is one of them. *)
Lemma ml_landmarks_in_bounds (landmark : list MPLandmark) :
  (29 <= length landmark)%nat ->
  Forall (fun i => (i < length landmark)%nat) ml_landmarks.
Proof. intros Hlen. unfold ml_landmarks. repeat constructor; lia. Qed.

Lemma visible_count_bound (landmark : list MPLandmark) (indices : list nat) :
  (visible_count landmark indices <= length indices)%nat.
Proof. unfold visible_count. apply filter_length_le. Qed.

(** [12 * 0.6] rounds to 7.199999999999999: the float test passes from a
    count of 8 on. *)
Lemma sixty_percent_threshold (k : nat) :
  (k <= 12)%nat ->
  (float_of_int (Z.of_nat (length ml_landmarks)) * 0.6
   <=? float_of_int (Z.of_nat k))%float
  = (8 <=? k)%nat.
Proof.
  intros Hk.
  do 13 (destruct k as [|k]; [vm_compute; reflexivity|]).
  lia.
Qed.

(** X12.  [process] never raises.  It returns [None] when the inference
    raised or found no pose; for a pose it returns that very pose exactly
    when the landmark list reaches index 28 and at least 8 of the 12 key
    landmarks have a visibility above 0.5 (the float product [12 * 0.6] is
    7.199999999999999, which counts from 8 on reach), and [None]
    otherwise. *)
Theorem process_needs_eight_visible_landmarks :
  process InferenceRaised = None
  /\ process (InferenceResult None) = None
  /\ (forall inference landmark,
        process inference = Some landmark ->
        inference = InferenceResult (Some landmark))
  /\ (forall landmark,
        process (InferenceResult (Some landmark)) = Some landmark
        <-> (29 <= length landmark)%nat
            /\ (8 <= visible_count landmark ml_landmarks)%nat).
Proof.
  split; [reflexivity|]. split; [reflexivity|].
  assert (Hgate : forall landmark,
             process (InferenceResult (Some landmark))
             = if (29 <=? length landmark)%nat
                  && (8 <=? visible_count landmark ml_landmarks)%nat
               then Some landmark else None).
  { intros landmark. cbn [process].
    destruct (29 <=? length landmark)%nat eqn:Hlen.
    - apply Nat.leb_le in Hlen.
      rewrite (sum_visible_in_bounds _ _ _ (ml_landmarks_in_bounds _ Hlen)).
      rewrite Z.add_0_l, sixty_percent_threshold; [reflexivity|].
      apply (visible_count_bound landmark ml_landmarks).
    - apply Nat.leb_gt in Hlen.
      rewrite (sum_visible_out_of_bounds landmark ml_landmarks 0 28);
        [reflexivity | unfold ml_landmarks; cbn; auto 13 | lia]. }
  split.
  - intros [|[landmark'|]] landmark Hp; try discriminate.
    rewrite Hgate in Hp.
    destruct (_ && _); [|discriminate]. congruence.
  - intros landmark. rewrite Hgate. split.
    + intros Hp.
      destruct (29 <=? length landmark)%nat eqn:Hlen;
        destruct (8 <=? visible_count landmark ml_landmarks)%nat eqn:Hvis;
        cbn [andb] in Hp; try discriminate.
      apply Nat.leb_le in Hlen, Hvis. now split.
    + intros [Hlen Hvis].
      now rewrite (proj2 (Nat.leb_le _ _) Hlen), (proj2 (Nat.leb_le _ _) Hvis).
Qed.

Lemma visibilities_values (landmark : list MPLandmark)
    (indices : list nat) :
  Forall (fun i => (i < length landmark)%nat) indices ->
  visibilities landmark indices
  = Ok (map (fun i => lm_visibility (nth i landmark (mkLandmark 0 0 0)))
          indices).
Proof.
  induction indices as [|i rest IH]; intros Hall; [reflexivity|].
  apply Forall_cons_iff in Hall as [Hi Hrest].
  cbn [visibilities map].
  now rewrite (getitem_nth landmark i (mkLandmark 0 0 0) Hi), (IH Hrest).
Qed.

Section QualityFacts.

Variable py_sum : list float -> float.
Variable hash_order : list Phase -> nat.

Lemma get_landmark_quality_in_bounds (landmark : list MPLandmark) :
  (29 <= length landmark)%nat ->
  get_landmark_quality py_sum (Some landmark)
  = Returns
      (py_sum (map (fun i => lm_visibility (nth i landmark (mkLandmark 0 0 0)))
                 ml_landmarks) / 12)%float.
Proof.
  intros Hlen. cbn [get_landmark_quality].
  rewrite (visibilities_values _ _ (ml_landmarks_in_bounds _ Hlen)).
  reflexivity.
Qed.

(** X13.  [get_landmark_quality] returns 0.0 for no pose.  For a pose it
    raises [IndexError] exactly when the landmark list does not reach index
    28; otherwise it returns the sum of the visibilities of the 12 key
    landmarks (in the order of [ml_landmarks]) divided by 12, and never
    divides by zero. *)
Theorem quality_is_mean_key_visibility (landmark : list MPLandmark) :
  get_landmark_quality py_sum None = Returns 0%float
  /\ (get_landmark_quality py_sum (Some landmark)
      = Raises (Builtin IndexError)
      <-> (length landmark < 29)%nat)
  /\ ((29 <= length landmark)%nat ->
      get_landmark_quality py_sum (Some landmark)
      = Returns
          (py_sum
             (map (fun i => lm_visibility (nth i landmark (mkLandmark 0 0 0)))
                ml_landmarks)
           / 12)%float).
Proof.
  split; [reflexivity|]. split.
  - split.
    + intros Hraise.
      destruct (Nat.lt_ge_cases (length landmark) 29) as [Hlt | Hge];
        [exact Hlt|].
      rewrite (get_landmark_quality_in_bounds _ Hge) in Hraise. discriminate.
    + intros Hlt. cbn [get_landmark_quality].
      rewrite (visibilities_out_of_bounds landmark ml_landmarks 28);
        [reflexivity | unfold ml_landmarks; cbn; auto 13 | lia].
  - apply get_landmark_quality_in_bounds.
Qed.

Lemma process_some (inference : Inference) (landmark : list MPLandmark) :
  process inference = Some landmark ->
  inference = InferenceResult (Some landmark)
  /\ (29 <= length landmark)%nat
  /\ (8 <= visible_count landmark ml_landmarks)%nat.
Proof.
  intros Hp.
  destruct inference as [|[landmark'|]]; try discriminate.
  cbn [process] in Hp.
  destruct (Nat.lt_ge_cases (length landmark') 29) as [Hlt | Hge].
  - rewrite (sum_visible_out_of_bounds landmark' ml_landmarks 0 28) in Hp;
      [discriminate | unfold ml_landmarks; cbn; auto 13 | lia].
  - rewrite (sum_visible_in_bounds _ _ _ (ml_landmarks_in_bounds _ Hge)) in Hp.
    rewrite Z.add_0_l, sixty_percent_threshold in Hp
      by apply (visible_count_bound landmark' ml_landmarks).
    destruct (8 <=? visible_count landmark' ml_landmarks)%nat eqn:Hvis;
      [|discriminate].
    apply Nat.leb_le in Hvis. inversion Hp; subst. auto.
Qed.

(** X14.  The tracking part of the real-time loop never raises, whatever
    MediaPipe returns: a pose that [process] lets through has all the
    indices [get_landmark_quality] reads.  When no update is made (no pose,
    too few visible landmarks, quality not above 0.6) the push-up detector
    is left exactly as it was; when one is made, the pose had at least 29
    landmarks, 8 of the key ones visible, and the frame given to [update]
    has one point per landmark, so that (on a detector whose smoothing
    window holds no Neutral) the phase is Neutral exactly when the pose
    does not have 33 landmarks. *)
Theorem track_frame_never_raises (inference : Inference)
    (now now_count : float) (self : PushupDetector) :
  exists out self',
    track_frame py_sum hash_order inference now now_count self
    = Returns (out, self')
    /\ (out = None -> self' = self)
    /\ (forall r, out = Some r ->
        exists landmark,
          inference = InferenceResult (Some landmark)
          /\ (29 <= length landmark)%nat
          /\ (8 <= visible_count landmark ml_landmarks)%nat
          /\ update hash_order
               (mkFrame (extract_ml_coordinates (Some landmark))
                  now now_count) self = Ok (r, self')
          /\ (~ In Neutral (position_history self) ->
              (res_phase r = Neutral <-> length landmark <> 33%nat))).
Proof.
  unfold track_frame.
  destruct (process inference) as [landmark|] eqn:Hp.
  - destruct (process_some _ _ Hp) as (Hinf & Hlen & Hvis).
    rewrite (get_landmark_quality_in_bounds _ Hlen).
    destruct (0.6 <? _)%float.
    + rewrite update_step.
      destruct (step hash_order
                  (mkFrame (extract_ml_coordinates (Some landmark))
                     now now_count) self) as [r self'] eqn:Hstep.
      exists (Some r), self'. split; [reflexivity|].
      split; [discriminate|].
      intros r' Hr'. inversion Hr'; subst r'.
      exists landmark.
      split; [exact Hinf|]. split; [exact Hlen|]. split; [exact Hvis|].
      split; [now rewrite update_step, Hstep|]. intros Hclean.
      pose proof (step_state hash_order
                    (mkFrame (extract_ml_coordinates (Some landmark))
                       now now_count) self) as Hstate.
      rewrite Hstep in Hstate. cbn [fst snd frame_landmarks] in Hstate.
      destruct Hstate as (_ & _ & Hphase & _).
      destruct (detected_label_not_neutral hash_order
                  (extract_ml_coordinates (Some landmark)) self Hclean)
        as (_ & Hiff).
      cbn [extract_ml_coordinates] in Hiff. rewrite length_map in Hiff.
      rewrite Hphase. apply Hiff.
    + exists None, self. split; [reflexivity|]. split; [reflexivity|].
      discriminate.
  - exists None, self. split; [reflexivity|]. split; [reflexivity|].
    discriminate.
Qed.

End QualityFacts.

End PoseFacts.

(** * Composition of calls *)

Lemma session_app (hash_order : list Phase -> nat) (first second : list Call)
    (s s1 s2 : PushupDetector) (rs1 rs2 : list UpdateResult) :
  session hash_order first s = Ok (rs1, s1) ->
  session hash_order second s1 = Ok (rs2, s2) ->
  session hash_order (first ++ second) s = Ok (rs1 ++ rs2, s2).
Proof.
  revert s rs1. induction first as [|[f|] rest IH]; intros s rs1 H1 H2.
  - cbn in H1. inversion H1; subst. exact H2.
  - cbn [app session] in *. unfold bind at 1 in H1. unfold bind at 1.
    rewrite update_step in *.
    destruct (step hash_order f s) as [r sa].
    unfold bind in H1 |- *.
    destruct (session hash_order rest sa) as [[rs sb]|e] eqn:Hrest;
      [|discriminate].
    inversion H1; subst.
    now rewrite (IH _ _ Hrest H2).
  - cbn [app session] in *. unfold bind in H1 |- *.
    rewrite reset_step in *. now apply IH.
Qed.

Lemma session_same_observable (hash_order : list Phase -> nat)
    (calls : list Call) (a b a' : PushupDetector) (rs : list UpdateResult) :
  same_observable a b ->
  session hash_order calls a = Ok (rs, a') ->
  exists b', session hash_order calls b = Ok (rs, b').
Proof.
  revert a b rs. induction calls as [|[f|] rest IH]; intros a b rs Hab Hrun.
  - cbn in *. inversion Hrun; subst. now exists b.
  - cbn [session] in *. unfold bind at 1 in Hrun. unfold bind at 1.
    rewrite update_step in *.
    destruct (step_same_observable hash_order f a b Hab) as (Hres & Hnext).
    destruct (step hash_order f a) as [ra sa].
    destruct (step hash_order f b) as [rb sb].
    cbn [fst snd] in *. subst rb.
    unfold bind in Hrun |- *.
    destruct (session hash_order rest sa) as [[rsa sa']|e] eqn:Hrest;
      [|discriminate].
    inversion Hrun; subst.
    destruct (IH _ _ _ Hnext Hrest) as (b' & ->). now exists b'.
  - cbn [session] in *. unfold bind in Hrun |- *.
    rewrite reset_step in *.
    apply (IH (reset_state a) (reset_state b) rs); [|exact Hrun].
    unfold same_observable in *. cbn. tauto.
Qed.

(** X15.  [reset] forgets the past: in any sequence of calls on a fresh
    detector, the records returned after a [reset] are those a fresh
    detector returns for the calls that follow it, whatever was fed
    before. *)
Theorem reset_forgets_the_past (hash_order : list Phase -> nat)
    (before after : list Call) :
  exists rs1 s1 rs2 s2 s',
    session hash_order before init = Ok (rs1, s1)
    /\ session hash_order after init = Ok (rs2, s2)
    /\ session hash_order (before ++ CallReset :: after) init
       = Ok (rs1 ++ rs2, s').
Proof.
  destruct (session_invariant hash_order
              (fun s => min_rep_interval s = 1.0%float) (fun _ _ => True))
    with (calls := before) (s := init) as (rs1 & s1 & Hrun1 & Hmin & _).
  - intros f s Hs. split; [|exact I].
    destruct (step_state hash_order f s) as (_ & _ & _ & Hm & _). congruence.
  - intros s Hs. exact Hs.
  - reflexivity.
  - destruct (session_invariant hash_order (fun _ => True) (fun _ _ => True))
      with (calls := after) (s := init) as (rs2 & s2 & Hrun2 & _); auto.
    destruct (session_same_observable hash_order after init (reset_state s1)
                s2 rs2) as (s' & Hrun3).
    + unfold same_observable. cbn. auto.
    + exact Hrun2.
    + exists rs1, s1, rs2, s2, s'. repeat split; try assumption.
      apply (session_app hash_order before (CallReset :: after) init s1 s');
        [exact Hrun1|].
      cbn [session]. unfold bind. now rewrite reset_step.
Qed.

(** * What [update] reads of a frame *)

(** X16.  [update] reads of a 33-landmark frame only the heights of the
    nose, the shoulders, the elbows and the wrists (landmarks 0 and 11 to
    16): two such frames that agree on these seven heights and on the
    clock readings give the same record and leave the detector in the same
    state, whatever their x coordinates and their other landmarks. *)
Theorem update_reads_seven_heights (hash_order : list Phase -> nat)
    (f g : Frame) (s : PushupDetector) :
  length (frame_landmarks f) = 33%nat ->
  length (frame_landmarks g) = 33%nat ->
  Forall (fun i => Classifier.y_of (frame_landmarks f) i
                   = Classifier.y_of (frame_landmarks g) i)
    [0; 11; 12; 13; 14; 15; 16]%nat ->
  frame_time_check f = frame_time_check g ->
  frame_time_count f = frame_time_count g ->
  update hash_order f s = update hash_order g s.
Proof.
  intros Hf Hg Hy Hcheck Hcount.
  repeat match goal with
         | H : Forall _ (_ :: _) |- _ => apply Forall_cons_iff in H as [? H]
         end.
  assert (Hraw : Classifier.raw_label (frame_landmarks f)
                 = Classifier.raw_label (frame_landmarks g)).
  { unfold Classifier.raw_label, Classifier.wrist_shoulder_diff,
      Classifier.elbow_shoulder_diff, Classifier.nose_shoulder_diff.
    congruence. }
  rewrite !update_step. f_equal.
  unfold step, counts_rep, detected_label, detected_state, window_after.
  rewrite (proj2 (Nat.eqb_eq _ _) Hf), (proj2 (Nat.eqb_eq _ _) Hg).
  now rewrite Hraw, Hcheck, Hcount.
Qed.

Lemma update_reads_seven_heights_witness :
  update Samples.nodup_order
    (Samples.at_time Samples.down_pose 100) Samples.about_to_complete
  = update Samples.nodup_order
      (Samples.at_time Samples.shifted_down_pose 100)
      Samples.about_to_complete.
Proof.
  apply (update_reads_seven_heights Samples.nodup_order
           (Samples.at_time Samples.down_pose 100)
           (Samples.at_time Samples.shifted_down_pose 100)
           Samples.about_to_complete).
  - reflexivity.
  - reflexivity.
  - vm_compute. repeat constructor.
  - reflexivity.
  - reflexivity.
Defined.

(** The gate of [process] on sample poses: a full pose with every landmark
    at visibility 0.9 passes; the same pose at visibility 0.4 and a pose
    of 20 landmarks are dropped without an exception. *)
Example process_on_sample_poses :
  Pose.process (Pose.InferenceResult (Some (Pose.uniform_pose 33 0.9)))
  = Some (Pose.uniform_pose 33 0.9)
  /\ Pose.process (Pose.InferenceResult (Some (Pose.uniform_pose 33 0.4)))
     = None
  /\ Pose.process (Pose.InferenceResult (Some (Pose.uniform_pose 20 0.9)))
     = None.
Proof. vm_compute. auto. Qed.
